(* ===== verification/_CoqProject ===== *)
-Q . S2P
Prelude.v
Python.v
PyStr.v
Console.v
ShiftRow.v
ColumnSums.v
Product.v
Search.v
Loader.v
Solve.v
