(* ===== verification/Prelude.v ===== *)
(** * ring-shift: a verification development of [src/main.py]

    The repository is one Python script.  It reads an integer matrix from a
    text file and searches all combinations of per-row circular right shifts
    for one that makes every column sum equal to 100.  The script has four
    parts, which call one another in this order:

    - [read_matrix] (lines 5-45) reads the file into a list of rows,
      skipping lines that do not parse and rejecting ragged matrices;
    - [shift_row] (lines 47-58) rotates one row to the right;
    - [check_column_sums] (lines 60-71) builds a NumPy array and compares
      its column sums with the target;
    - [solve_matrix_problem] (lines 73-121) calls the loader, guards the
      empty cases, enumerates [itertools.product(range(C), repeat=R)],
      shifts every row, checks the sums and prints the first solution.

    Everything the script prints is modelled as output: a list of events.
    The model has a constructor for each [print] of the source.

    ** Files, in dependency order

    - [Prelude]: this header; the writer monad [W] (a result paired with
      the events printed), its laws and hint database [wsimp]; shared
      arithmetic lemmas.
    - [Python]: the Python semantics that the script relies on.  These are
      list slicing [py_slice] (with CPython's index clamping), [range] as
      [py_range], and floor modulo, which is [Z.modulo].
    - [PyStr]: the string built-ins [read_matrix] calls, on ASCII text.
      [f.readlines()] is modelled with universal newlines, [str.strip()]
      with the [str.isspace] set, [split(',')] and [startswith("//")] as
      written.  [int()] follows [PyLong_FromString].  It skips only C
      whitespace around the number, a narrower set than [str.strip()].
      It takes a sign, underscores between digits, and the 4300-digit
      limit of Python 3.11 and later.  Python's [str(int)] is also given,
      so that the theorems can state [int(str(z)) = z] for every integer
      of at most 4300 digits.  Other theorems show that [int] rejects
      longer numbers and bound every value it accepts.  They also show
      which whitespace it skips and that underscores between digits
      change nothing.
    - [Console]: the [event] type, one constructor per [print] of
      [src/main.py].
    - [ShiftRow]: [shift_row] (lines 47-58).  Its theorems give the slice
      form of the result, agreement with stdpp's [rotate], element lookup,
      length, invariance under [k mod n], the identity shift, composition,
      the round trip and the permutation property.
    - [ColumnSums]: [check_column_sums] (lines 60-71) with the NumPy
      semantics it depends on.  That covers dtype discovery for Python ints
      (int64, uint64, float64 or object), column sums with int64/uint64
      wrap-around and float64 rounding, and the ragged-array error path.
      A float64 array of one column is summed with NumPy's [pairwise_sum],
      whose fuel is shown to be enough.
      The theorems relate it to the exact specification [columns_sum_to];
      they hold exactly for object dtype, and for int64 when no column sum
      overflows.  A counterexample shows an int64 overflow making the
      check pass.
    - [Product]: [itertools.product] in two forms.  The reference form is
      the one the Python documentation gives.  The odometer form is the
      one CPython implements.  The theorems prove the two forms equal,
      and that the odometer stops after exactly C^R tuples.  They also
      give the enumeration: its length, its members, no duplicates,
      strictly increasing lexicographic order, and the i-th tuple as the
      base-C digits of i.
    - [Search]: the loop of [solve_matrix_problem] (lines 92-118): progress
      output, candidate construction, first-success exit.  The generic
      first-success facts are proved in a [Section] over an arbitrary
      candidate list and test.  The program-level theorems refine the loop
      to the abstract contract [search_spec]: it returns the
      lexicographically least satisfying shift assignment, or [Exhausted]
      exactly when none exists.
    - [Loader]: [read_matrix] (lines 5-45): the comment test, the parse loop
      with its warnings, and the no-data and inconsistent-columns checks.
      The theorems show four things.  A successful load is exactly a
      nonempty rectangular matrix of nonempty rows, the rows of the lines
      that parse.  The warnings are exactly the unparseable lines.  The
      comment test never changes the result.  A matrix written in the
      documented format is read back unchanged, with or without a [//]
      header.
    - [Solve]: [solve_matrix_problem] (lines 73-121), which composes the
      loader with the search.  The theorems show that a run either fails
      to load or ends with the answer of [search_spec] on a well-formed
      matrix, and that the [CannotSolve] branches (lines 84-90) are dead.
      A file whose parsed rows are ragged ends the run with the
      inconsistent-columns error and the exit message, before any search;
      the malformed file of the specification is an instance.

    ** What is not modelled

    The file system is a value: [None] for a missing file, [Some s] for its
    contents, read as ASCII text.  Failures of [open] ([OSError] for a
    directory or a file that cannot be read) and [UnicodeDecodeError] on
    text that is not UTF-8 end the script with a traceback; they are not
    modelled.  Neither is the decoding of non-ASCII text, whose Unicode
    whitespace and digits [str.strip] and [int] would also accept.  Console output is the list of events, not
    the formatted text.  NumPy and itertools are modelled from their
    documented and CPython behaviour, because they are libraries the script
    only calls.  In the model NumPy is version 1.24 or later, where a
    ragged list raises [ValueError].

    ** Bounds and fuel

    Integers are [Z], as Python ints are unbounded.  NumPy int64 and uint64
    arithmetic is written out as explicit wrap-around modulo 2^64, and
    float64 arithmetic on integers as rounding to 53 significant bits.
    The loops of the script are structural recursions on finite lists.
    Three definitions take fuel:
    - the CPython odometer, with fuel C^R; a theorem shows that this is
      exactly enough;
    - NumPy's [pairwise_sum], with fuel the length of the column; the
      recursion halves the list, and [pairwise_sum_fuel] shows that any
      fuel at least the length gives the same sum;
    - [str(int)], with fuel [log2 n + 1] digits; [decimal_fuel] shows that
      [n] has no more. *)

From stdpp Require Export base list lexico.
From Stdlib Require Export ZArith Lia.

(** ** The writer monad: a computation that returns a value and prints *)

Declare Scope rshift_scope.
Delimit Scope rshift_scope with rs.

Definition W (E A : Type) : Type := (list E * A)%type.

#[export] Instance W_ret {E} : MRet (W E) := λ A a, ([], a).
#[export] Instance W_bind {E} : MBind (W E) :=
  λ A B f m, let '(o1, a) := m in let '(o2, b) := f a in (o1 ++ o2, b).

(** [tell o] prints the events [o]. *)
Definition tell {E} (o : list E) : W E unit := (o, tt).

(** The printed events and the returned value of a computation. *)
Definition out {E A} (m : W E A) : list E := fst m.
Definition val {E A} (m : W E A) : A := snd m.

Section WriterLaws.
Context {E : Type}.

Lemma W_bind_ret_l {A B} (a : A) (f : A → W E B) : (mret a ≫= f) = f a.
Proof. unfold mbind, mret, W_bind, W_ret. by destruct (f a). Qed.

Lemma W_bind_ret_r {A} (m : W E A) : (m ≫= mret) = m.
Proof. destruct m. unfold mbind, mret, W_bind, W_ret. by rewrite app_nil_r. Qed.

(** A computation that has printed nothing is a returned value. *)
Lemma W_bind_silent {A B} (a : A) (f : A → W E B) : (([] : list E), a) ≫= f = f a.
Proof. unfold mbind, W_bind. by destruct (f a). Qed.

Lemma W_bind_assoc {A B C} (m : W E A) (f : A → W E B) (g : B → W E C) :
  ((m ≫= f) ≫= g) = (m ≫= λ a, f a ≫= g).
Proof.
  destruct m as [o a]. unfold mbind, W_bind; simpl.
  destruct (f a) as [o2 b]; simpl. destruct (g b) as [o3 c]. by rewrite app_assoc.
Qed.

Lemma out_bind {A B} (m : W E A) (f : A → W E B) :
  out (m ≫= f) = out m ++ out (f (val m)).
Proof. destruct m as [o a]. unfold out, val, mbind, W_bind; simpl. by destruct (f a). Qed.

Lemma val_bind {A B} (m : W E A) (f : A → W E B) :
  val (m ≫= f) = val (f (val m)).
Proof. destruct m as [o a]. unfold out, val, mbind, W_bind; simpl. by destruct (f a). Qed.

Lemma out_ret {A} (a : A) : out (mret (M := W E) a) = [].
Proof. done. Qed.

Lemma val_ret {A} (a : A) : val (mret (M := W E) a) = a.
Proof. done. Qed.

Lemma out_tell (o : list E) : out (tell o) = o.
Proof. done. Qed.

Lemma val_tell (o : list E) : val (tell o) = tt.
Proof. done. Qed.
End WriterLaws.

Create Rewrite HintDb wsimp.
#[export] Hint Rewrite @out_bind @val_bind @out_ret @val_ret @out_tell @val_tell
  @W_bind_ret_l : wsimp.

(** [wsimp] pushes [out] and [val] through binds, returns and prints. *)
Ltac wsimp := autorewrite with wsimp in *.

(** ** Shared arithmetic *)

Create HintDb rshift discriminated.

Lemma Z_to_nat_mod_lt (k : Z) (n : nat) :
  0 < n → Z.to_nat (k mod Z.of_nat n) < n.
Proof. intros Hn. pose proof (Z.mod_pos_bound k (Z.of_nat n)). lia. Qed.

Lemma Z_mod_of_nat_range (k : Z) (n : nat) :
  0 < n → (0 <= k mod Z.of_nat n < Z.of_nat n)%Z.
Proof. intros Hn. apply Z.mod_pos_bound. lia. Qed.

#[export] Hint Resolve Z_to_nat_mod_lt Z_mod_of_nat_range : rshift.

(** ** Shared list lemmas *)

(** Positions of a list are bounded by its length. *)
Lemma lookup_seq_lt (s n i : nat) : i < n → seq s n !! i = Some (s + i).
Proof. intros. apply lookup_seq. lia. Qed.

#[export] Hint Resolve lookup_seq_lt : rshift.

(** Two lists of the same length that agree below that length are equal. *)
Lemma list_eq_lookup_lt {A} (l1 l2 : list A) :
  length l1 = length l2 →
  (∀ j, j < length l1 → l1 !! j = l2 !! j) → l1 = l2.
Proof.
  intros Hlen Hj. apply list_eq. intros j.
  destruct (decide (j < length l1)) as [?|?]; [by apply Hj|].
  rewrite !lookup_ge_None_2 by lia. done.
Qed.

(** Reducing the subtrahend or the minuend modulo [n] first does not
    change a difference modulo [n]. *)
Lemma Z_sub_mod_mod_r (a b n : Z) : ((a - b mod n) mod n = (a - b) mod n)%Z.
Proof. apply Zminus_mod_idemp_r. Qed.

Lemma Z_sub_mod_mod_l (a b n : Z) : ((a mod n - b) mod n = (a - b) mod n)%Z.
Proof. apply Zminus_mod_idemp_l. Qed.

Create Rewrite HintDb rshift_mod.
#[export] Hint Rewrite Z_sub_mod_mod_r Z_sub_mod_mod_l : rshift_mod.

(** [forallb] over a list, read through its positions. *)
Lemma forallb_lookup_iff {A} (p : A → bool) (l : list A) :
  forallb p l = true ↔ ∀ j x, l !! j = Some x → p x = true.
Proof.
  rewrite forallb_forall. split.
  - intros H j x Hj. apply H. apply list_elem_of_In. by eapply list_elem_of_lookup_2.
  - intros H x Hx. apply list_elem_of_In, list_elem_of_lookup in Hx as [j Hj]. by eapply H.
Qed.

(** A map by a function that fixes every element is the identity. *)
Lemma list_fmap_fixed {A} (f : A → A) (l : list A) : (∀ x, f x = x) → f <$> l = l.
Proof. intros Hf. induction l as [|x l IH]; csimpl; [done|]. by rewrite Hf, IH. Qed.

(** A relation to a constant list is a property of each element. *)
Lemma Forall2_replicate_r_inv {A B} (P : A → B → Prop) (l : list A) (n : nat) (y : B) :
  Forall2 P l (replicate n y) → Forall (λ x, P x y) l.
Proof. revert n. induction l as [|x l IH]; intros [|n]; inversion 1; subst; eauto. Qed.

(** ** Integer sums *)

Definition sum_Z (xs : list Z) : Z := foldr Z.add 0%Z xs.

Lemma sum_Z_abs_bound (xs : list Z) (B : Z) :
  Forall (λ x, Z.abs x <= B)%Z xs → (Z.abs (sum_Z xs) <= Z.of_nat (length xs) * B)%Z.
Proof. induction 1 as [|x xs Hx Hxs IH]; simpl; lia. Qed.

Lemma Forall_concat_iff {A} (P : A → Prop) (ls : list (list A)) :
  Forall P (concat ls) ↔ Forall (Forall P) ls.
Proof.
  induction ls as [|l ls IH]; [split; constructor|].
  by rewrite concat_cons, Forall_app, Forall_cons, IH.
Qed.

Lemma foldl_add_sum_Z (a : Z) (xs : list Z) : foldl Z.add a xs = (a + sum_Z xs)%Z.
Proof. revert a. induction xs as [|x xs IH]; intros a; simpl; [lia|]. rewrite IH. lia. Qed.

(** ** The list monad *)

Section ListMonad.
Context {A B C : Type}.

Lemma list_bind_ret_r (l : list A) : l ≫= (λ x, [x]) = l.
Proof. induction l as [|x l IH]; [done|]. rewrite bind_cons, IH. done. Qed.

Lemma list_bind_assoc (l : list A) (f : A → list B) (g : B → list C) :
  (l ≫= f) ≫= g = l ≫= λ x, f x ≫= g.
Proof. induction l as [|x l IH]; [done|]. by rewrite !bind_cons, bind_app, IH. Qed.

Lemma list_fmap_bind_r (l : list A) (f : A → list B) (g : B → C) :
  g <$> (l ≫= f) = l ≫= λ x, g <$> f x.
Proof. induction l as [|x l IH]; [done|]. by rewrite !bind_cons, fmap_app, IH. Qed.

(** A bind whose blocks all have length [n]. *)
Lemma length_bind_uniform (l : list A) (f : A → list B) (n : nat) :
  (∀ x, length (f x) = n) → length (l ≫= f) = length l * n.
Proof.
  intros Hf. induction l as [|x l IH]; [done|].
  rewrite bind_cons, length_app, IH, Hf. simpl. lia.
Qed.

Lemma lookup_bind_uniform (l : list A) (f : A → list B) (n k : nat) :
  (∀ x, length (f x) = n) → 0 < n →
  (l ≫= f) !! k = (x ← l !! (k / n); f x !! (k mod n)).
Proof.
  intros Hf Hn. revert k. induction l as [|x l IH]; intros k; [done|].
  rewrite bind_cons. destruct (decide (k < n)) as [Hk|Hk].
  - rewrite lookup_app_l by (by rewrite Hf).
    rewrite Nat.div_small, Nat.mod_small by lia. done.
  - rewrite lookup_app_r by (rewrite Hf; lia). rewrite Hf, IH.
    assert (∃ k', k = k' + 1 * n) as [k' ->] by (exists (k - n); lia).
    replace (k' + 1 * n - n) with k' by lia.
    rewrite Nat.div_add, Nat.Div0.mod_add by lia. rewrite Nat.add_1_r. done.
Qed.
End ListMonad.
