(* ===== verification/Python.v ===== *)
(** * Python semantics used by [src/main.py]

    The built-in operations the script relies on, written as CPython
    evaluates them:
    - list slicing [l[start:stop]] with step 1, as [py_slice].  Missing bounds
      are [None].  Negative bounds count from the end.  Bounds are clamped
      to [0, len(l)] as [PySlice_AdjustIndices] does.
    - [range(n)] as [py_range].
    - Python's [%] on ints is floor modulo: the result has the sign of the
      divisor.  This is [Z.modulo], so no separate definition is given. *)

From S2P Require Import Prelude.

Local Open Scope Z_scope.

(** ** Slicing *)

(** One slice bound, after [PySlice_AdjustIndices]: negative indices count
    from the end, then the index is clamped to [0, n]. *)
Definition py_slice_bound (n i : Z) : Z :=
  if i <? 0 then Z.max 0 (i + n) else Z.min i n.

(** [l[start:stop]]; [None] is an omitted bound. *)
Definition py_slice {A} (l : list A) (start stop : option Z) : list A :=
  let n := Z.of_nat (length l) in
  let s := from_option (py_slice_bound n) 0 start in
  let e := from_option (py_slice_bound n) n stop in
  take (Z.to_nat e - Z.to_nat s)%nat (drop (Z.to_nat s) l).

(** ** [range] *)

Definition py_range (n : Z) : list Z := Z.of_nat <$> seq 0 (Z.to_nat n).

(** ** Lemmas on slices *)

Section Slices.
Context {A : Type}.
Implicit Types l : list A.

(** [l[-k:]] is the last [k] elements when [0 < k <= len(l)]. *)
Lemma py_slice_neg_start l (k : nat) :
  (0 < k ≤ length l)%nat →
  py_slice l (Some (- Z.of_nat k)) None = drop (length l - k) l.
Proof.
  intros Hk. unfold py_slice, py_slice_bound; simpl.
  rewrite (proj2 (Z.ltb_lt _ _)) by lia.
  replace (Z.to_nat (Z.max 0 (- Z.of_nat k + Z.of_nat (length l))))
    with (length l - k)%nat by lia.
  rewrite Nat2Z.id. apply take_ge. rewrite length_drop. lia.
Qed.

(** [l[:-k]] is all but the last [k] elements when [0 < k <= len(l)]. *)
Lemma py_slice_neg_stop l (k : nat) :
  (0 < k ≤ length l)%nat →
  py_slice l None (Some (- Z.of_nat k)) = take (length l - k) l.
Proof.
  intros Hk. unfold py_slice, py_slice_bound; simpl.
  rewrite (proj2 (Z.ltb_lt _ _)) by lia.
  replace (Z.to_nat (Z.max 0 (- Z.of_nat k + Z.of_nat (length l))) - Z.to_nat 0)%nat
    with (length l - k)%nat by lia.
  by rewrite drop_0.
Qed.

(** [l[-0:]] is [l[0:]], the whole list. *)
Lemma py_slice_zero_start l : py_slice l (Some 0) None = l.
Proof.
  unfold py_slice, py_slice_bound; simpl.
  rewrite Z.min_l, Nat2Z.id by lia. simpl. rewrite drop_0. apply take_ge. lia.
Qed.

(** [l[:-0]] is [l[:0]], the empty list. *)
Lemma py_slice_zero_stop l : py_slice l None (Some 0) = [].
Proof. unfold py_slice, py_slice_bound; simpl. by rewrite Z.min_l by lia. Qed.
End Slices.

Lemma length_py_range (n : Z) : length (py_range n) = Z.to_nat n.
Proof. unfold py_range. by rewrite length_fmap, length_seq. Qed.

Lemma elem_of_py_range (n x : Z) : x ∈ py_range n ↔ 0 <= x < n.
Proof.
  unfold py_range. rewrite list_elem_of_fmap. split.
  - intros (y & -> & Hy). apply elem_of_seq in Hy. lia.
  - intros Hx. exists (Z.to_nat x). split; [lia|]. apply elem_of_seq. lia.
Qed.
