(* ===== verification/PyStr.v ===== *)
(** * Python string built-ins used by [read_matrix] of [src/main.py]

    The loader (lines 15-33) reads a text file and calls [f.readlines()],
    [str.strip()], [str.startswith("//")], [str.split(',')] and [int(val)].
    They are written here as CPython evaluates them on a string of ASCII
    characters (text mode, default newline handling):
    - [py_readlines]: universal newlines turn ["\r\n"] and a lone ["\r"] into
      ["\n"].  The text is then cut after each ["\n"], which stays on its line.
    - [py_strip]: [str.strip()] removes the characters for which
      [str.isspace] holds (9-13 and 28-32) at both ends.
    - [py_split]: [s.split(',')] with an explicit separator.  Every
      occurrence cuts, and [""] splits into [[""]].
    - [py_int]: [int(s)] in base 10, as [PyLong_FromString] reads it.  An
      ASCII string reaches it unchanged, so only the C whitespace
      [Py_ISSPACE] (9-13 and 32) is skipped around the number, not the
      wider [str.isspace] set.  It takes an optional sign.  The
      digits may have single underscores between them.  The digit count is
      limited to [sys.get_int_max_str_digits()], 4300 by default.

    [py_str_int] is Python's [str(int)], used to state the round trip
    [py_int (py_str_int z) = Some z]. *)

From Stdlib Require Import Ascii String.
From stdpp Require Import strings.
From S2P Require Import Prelude.

Local Open Scope Z_scope.
#[local] Arguments String.append : simpl nomatch.

(** ** Character classes *)

(** [str.isspace] on an ASCII character: [\t \n \v \f \r], the separators
    [\x1c]-[\x1f] and the space. *)
Definition is_py_space (c : ascii) : bool :=
  let n := Ascii.nat_of_ascii c in
  ((9 <=? n) && (n <=? 13))%nat || ((28 <=? n) && (n <=? 32))%nat.

(** [Py_ISSPACE], the whitespace [PyLong_FromString] skips: [\t \n \v \f \r]
    and the space. *)
Definition is_c_space (c : ascii) : bool :=
  let n := Ascii.nat_of_ascii c in ((9 <=? n) && (n <=? 13))%nat || (n =? 32)%nat.

Definition is_digit (c : ascii) : bool :=
  let n := Ascii.nat_of_ascii c in ((48 <=? n) && (n <=? 57))%nat.

Definition digit_value (c : ascii) : Z := Z.of_nat (Ascii.nat_of_ascii c) - 48.

(** [p] holds of every character of [s]. *)
Fixpoint str_forall (p : ascii → bool) (s : string) : bool :=
  match s with
  | EmptyString => true
  | String c r => p c && str_forall p r
  end.

(** ** Stripping whitespace *)

(** Leading and trailing characters of the class [ws] removed. *)
Fixpoint py_lstrip (ws : ascii → bool) (s : string) : string :=
  match s with
  | EmptyString => EmptyString
  | String c r => if ws c then py_lstrip ws r else s
  end.

Fixpoint py_rstrip (ws : ascii → bool) (s : string) : string :=
  match s with
  | EmptyString => EmptyString
  | String c r =>
      let r' := py_rstrip ws r in
      if ws c && bool_decide (r' = EmptyString) then EmptyString
      else String c r'
  end.

Definition strip_with (ws : ascii → bool) (s : string) : string :=
  py_rstrip ws (py_lstrip ws s).

(** [str.strip()]. *)
Definition py_strip (s : string) : string := strip_with is_py_space s.

(** ** [str.startswith] *)

Definition py_startswith (s prefix : string) : bool := String.prefix prefix s.

(** ** [str.split(sep)] *)

(** The first field of [s] and the fields after the first separator. *)
Fixpoint split_aux (sep : ascii) (s : string) : string * list string :=
  match s with
  | EmptyString => (EmptyString, [])
  | String c r =>
      let '(w, ws) := split_aux sep r in
      if bool_decide (c = sep) then (EmptyString, w :: ws) else (String c w, ws)
  end.

Definition py_split (s : string) (sep : ascii) : list string :=
  let '(w, ws) := split_aux sep s in w :: ws.

(** ** [f.readlines()] in text mode *)

(** The universal-newlines translation of the text layer. *)
Fixpoint translate_newlines (s : string) : string :=
  match s with
  | EmptyString => EmptyString
  | String c r =>
      if bool_decide (c = "013"%char) then
        match r with
        | String d r' =>
            if bool_decide (d = "010"%char) then String "010" (translate_newlines r')
            else String "010" (translate_newlines r)
        | EmptyString => String "010" EmptyString
        end
      else String c (translate_newlines r)
  end.

(** The first line of [s], with its ["\n"], and the lines after it. *)
Fixpoint lines_aux (s : string) : string * list string :=
  match s with
  | EmptyString => (EmptyString, [])
  | String c r =>
      let '(w, ls) := lines_aux r in
      if bool_decide (c = "010"%char)
      then (String c EmptyString, if bool_decide (w = EmptyString) then [] else w :: ls)
      else (String c w, ls)
  end.

(** The lines of a text whose newlines are already translated. *)
Definition split_lines (s : string) : list string :=
  let '(w, ls) := lines_aux s in
  if bool_decide (w = EmptyString) then [] else w :: ls.

Definition py_readlines (contents : string) : list string :=
  split_lines (translate_newlines contents).

(** ** [int(s)] *)

(** [PyInterpreterState.long_state.max_str_digits], default 4300 (Python
    3.11 and later). *)
Definition max_str_digits : nat := 4300.

(** The digits of [s]: one or more decimal digits, with single underscores
    between digits.  The caller checks that the first character is a digit. *)
Fixpoint py_digits (s : string) : option (list Z) :=
  match s with
  | EmptyString => Some []
  | String c r =>
      if is_digit c then cons (digit_value c) <$> py_digits r
      else if bool_decide (c = "_"%char) then
        match r with
        | String d _ => if is_digit d then py_digits r else None
        | EmptyString => None
        end
      else None
  end.

(** The value of a list of decimal digits, most significant first. *)
Definition digits_value (ds : list Z) : Z := foldl (λ acc d, 10 * acc + d) 0 ds.

(** The sign and the remaining text after the optional [+] or [-]. *)
Definition py_sign (t : string) : Z * string :=
  match t with
  | String c r =>
      if bool_decide (c = "+"%char) then (1, r)
      else if bool_decide (c = "-"%char) then (-1, r)
      else (1, t)
  | EmptyString => (1, t)
  end.

(** The text after the sign: it must start with a digit, hold only digits
    and single underscores, and have at most [max_str_digits] digits. *)
Definition py_int_digits (sign : Z) (body : string) : option Z :=
  match body with
  | String d _ =>
      if is_digit d then
        ds ← py_digits body;
        if (length ds <=? max_str_digits)%nat then Some (sign * digits_value ds) else None
      else None
  | EmptyString => None
  end.

(** [int(s)]: [None] is the [ValueError]. *)
Definition py_int (s : string) : option Z :=
  let '(sign, body) := py_sign (strip_with is_c_space s) in py_int_digits sign body.

(** ** [str(int)] *)

Definition ascii_of_digit (d : Z) : ascii := Ascii.ascii_of_nat (48 + Z.to_nat d).

(** The decimal digits of [n > 0], least significant first; [fuel] bounds the
    number of digits. *)
Fixpoint digits_rev (fuel : nat) (n : Z) : list Z :=
  match fuel with
  | O => []
  | S f => if n <=? 0 then [] else n mod 10 :: digits_rev f (n / 10)
  end.

(** The decimal digits of [n ≥ 0], most significant first.  [n] has at most
    as many decimal digits as binary ones, which is the fuel. *)
Definition decimal_digits (n : Z) : list Z :=
  if n =? 0 then [0] else rev (digits_rev (S (Z.to_nat (Z.log2 n))) n).

Definition string_of_digits (ds : list Z) : string :=
  String.string_of_list_ascii (ascii_of_digit <$> ds).

Definition py_str_int (z : Z) : string :=
  if z <? 0 then String "-" (string_of_digits (decimal_digits (- z)))
  else string_of_digits (decimal_digits z).

(** ** Generic lemmas on strings *)

Lemma str_app_nil_r (s : string) : s +:+ EmptyString = s.
Proof. induction s as [|c r IH]; simpl; [done|by rewrite IH]. Qed.

Lemma str_forall_app p s t :
  str_forall p (s +:+ t) = str_forall p s && str_forall p t.
Proof. induction s as [|c r IH]; simpl; [done|]. by rewrite IH, andb_assoc. Qed.

(** The character [c] does not occur in [s]. *)
Definition not_in (c : ascii) (s : string) : bool :=
  str_forall (λ d, negb (bool_decide (d = c))) s.

Create HintDb pystr.

(** ** Stripping a word followed by whitespace *)

Section Strip.
Context (ws : ascii → bool).

Lemma py_lstrip_all_space s : str_forall ws s = true → py_lstrip ws s = EmptyString.
Proof.
  induction s as [|c r IH]; simpl; [done|].
  intros [Hc Hr]%andb_true_iff. rewrite Hc. auto.
Qed.

Lemma py_rstrip_all_space s : str_forall ws s = true → py_rstrip ws s = EmptyString.
Proof.
  induction s as [|c r IH]; simpl; [done|].
  intros [Hc Hr]%andb_true_iff. rewrite IH, Hc by done. by rewrite bool_decide_true.
Qed.

Lemma py_rstrip_app s t :
  str_forall (negb ∘ ws) s = true → str_forall ws t = true → py_rstrip ws (s +:+ t) = s.
Proof.
  intros Hs Ht. induction s as [|c r IH]; simpl in *; [by apply py_rstrip_all_space|].
  apply andb_true_iff in Hs as [Hc Hr]. rewrite IH by done.
  by destruct (ws c).
Qed.

(** Stripping a word with no whitespace followed by whitespace gives the
    word. *)
Lemma strip_with_app s t :
  str_forall (negb ∘ ws) s = true → str_forall ws t = true → strip_with ws (s +:+ t) = s.
Proof.
  intros Hs Ht. unfold strip_with. destruct s as [|c r]; simpl in Hs |- *.
  - by rewrite py_lstrip_all_space.
  - apply andb_true_iff in Hs as [Hc Hr]. destruct (ws c) eqn:E; [done|].
    change (String c (r +:+ t)) with (String c r +:+ t).
    apply py_rstrip_app; [simpl; by rewrite E|done].
Qed.

(** Trailing whitespace does not change the stripped text. *)
Lemma py_rstrip_app_space s t :
  str_forall ws t = true → py_rstrip ws (s +:+ t) = py_rstrip ws s.
Proof.
  intros Ht. induction s as [|c r IH]; simpl; [by apply py_rstrip_all_space|].
  by rewrite IH.
Qed.

Lemma py_lstrip_app s t :
  py_lstrip ws (s +:+ t) = if str_forall ws s then py_lstrip ws t else py_lstrip ws s +:+ t.
Proof.
  induction s as [|c r IH]; simpl; [done|].
  destruct (ws c); simpl; [done|done].
Qed.

Lemma strip_with_app_space s t :
  str_forall ws t = true → strip_with ws (s +:+ t) = strip_with ws s.
Proof.
  intros Ht. unfold strip_with. rewrite py_lstrip_app.
  destruct (str_forall ws s) eqn:Hs.
  - by rewrite py_lstrip_all_space, (py_lstrip_all_space s).
  - by apply py_rstrip_app_space.
Qed.

Lemma strip_with_id s : str_forall (negb ∘ ws) s = true → strip_with ws s = s.
Proof. intros Hs. rewrite <-(str_app_nil_r s) at 1. by apply strip_with_app. Qed.
End Strip.

(** ** [str.split] on joined fields *)

Lemma split_aux_app sep s t :
  not_in sep s = true →
  split_aux sep (s +:+ t) = let '(w, ws) := split_aux sep t in (s +:+ w, ws).
Proof.
  unfold not_in. induction s as [|c r IH]; simpl; intros H.
  { by destruct (split_aux sep t). }
  apply andb_true_iff in H as [Hc Hr]. rewrite IH by done.
  destruct (split_aux sep t) as [w ws]. apply negb_true_iff in Hc. by rewrite Hc.
Qed.

(** [sep.join(ws).split(sep)] is [ws] when no field contains [sep]. *)
Lemma py_split_concat sep ws :
  ws ≠ [] → Forall (λ w, not_in sep w = true) ws →
  py_split (String.concat (String sep EmptyString) ws) sep = ws.
Proof.
  unfold py_split. induction ws as [|w ws IH]; intros Hne Hws; [done|].
  apply Forall_cons in Hws as [Hw Hws].
  destruct ws as [|w' ws].
  { simpl. rewrite <-(str_app_nil_r w) at 1. rewrite split_aux_app by done. simpl.
    by rewrite str_app_nil_r. }
  specialize (IH ltac:(done) Hws).
  change (String.concat (String sep EmptyString) (w :: w' :: ws))
    with (w +:+ String sep (String.concat (String sep EmptyString) (w' :: ws))).
  rewrite split_aux_app by done. simpl.
  destruct (split_aux sep _) as [w0 ws0]. rewrite bool_decide_true by done.
  simpl. rewrite str_app_nil_r. by rewrite IH.
Qed.

(** ** [readlines] of newline-terminated lines *)

(** The text whose lines are [ls], each followed by ["\n"]. *)
Definition lines_text (ls : list string) : string :=
  foldr (λ l acc, l +:+ String "010" acc) EmptyString ls.

Lemma translate_newlines_id s : not_in "013" s = true → translate_newlines s = s.
Proof.
  unfold not_in. induction s as [|c r IH]; simpl; [done|].
  intros [Hc Hr]%andb_true_iff. apply negb_true_iff in Hc. rewrite Hc. by rewrite IH.
Qed.

Lemma lines_aux_app s t :
  not_in "010" s = true →
  lines_aux (s +:+ t) = let '(w, ls) := lines_aux t in (s +:+ w, ls).
Proof.
  unfold not_in. induction s as [|c r IH]; simpl; intros H.
  { by destruct (lines_aux t). }
  apply andb_true_iff in H as [Hc Hr]. rewrite IH by done.
  destruct (lines_aux t) as [w ls]. apply negb_true_iff in Hc. by rewrite Hc.
Qed.

Lemma split_lines_line s t :
  not_in "010" s = true →
  split_lines (s +:+ String "010" t) = (s +:+ String "010" EmptyString) :: split_lines t.
Proof.
  intros Hs. unfold split_lines at 1. rewrite lines_aux_app by done. simpl.
  destruct (lines_aux t) as [w ls] eqn:E. simpl.
  rewrite bool_decide_false by (by destruct s). unfold split_lines. by rewrite E.
Qed.

(** [readlines] gives back each line with its ["\n"] when no line holds a
    ["\n"] or a ["\r"]. *)
Lemma py_readlines_lines_text ls :
  Forall (λ l, not_in "010" l && not_in "013" l = true) ls →
  py_readlines (lines_text ls) = (λ l, l +:+ String "010" EmptyString) <$> ls.
Proof.
  intros Hls. unfold py_readlines. rewrite translate_newlines_id.
  - induction ls as [|l ls IH]; [done|]. apply Forall_cons in Hls as [Hl Hls].
    apply andb_true_iff in Hl as [Hl _]. simpl. rewrite split_lines_line by done.
    by rewrite IH.
  - induction ls as [|l ls IH]; [done|]. apply Forall_cons in Hls as [Hl Hls].
    apply andb_true_iff in Hl as [_ Hl]. simpl. unfold not_in in *.
    rewrite str_forall_app, Hl. simpl. by apply IH.
Qed.

(** ** Decimal digits *)

Definition is_dec_digit (d : Z) : Prop := 0 ≤ d < 10.

Lemma nat_of_ascii_of_digit d :
  is_dec_digit d → Ascii.nat_of_ascii (ascii_of_digit d) = (48 + Z.to_nat d)%nat.
Proof. intros Hd. unfold ascii_of_digit. apply Ascii.nat_ascii_embedding. red in Hd. lia. Qed.

Lemma is_digit_of_digit d : is_dec_digit d → is_digit (ascii_of_digit d) = true.
Proof.
  intros Hd. unfold is_digit. rewrite nat_of_ascii_of_digit by done. red in Hd.
  apply andb_true_iff. split; apply Nat.leb_le; lia.
Qed.

Lemma digit_value_of_digit d : is_dec_digit d → digit_value (ascii_of_digit d) = d.
Proof.
  intros Hd. unfold digit_value. rewrite nat_of_ascii_of_digit by done. red in Hd. lia.
Qed.

Lemma is_c_space_of_digit d : is_dec_digit d → is_c_space (ascii_of_digit d) = false.
Proof.
  intros Hd. unfold is_c_space. rewrite nat_of_ascii_of_digit by done. red in Hd.
  repeat match goal with |- context [Nat.leb ?a ?b] => destruct (Nat.leb_spec a b) end;
    simpl; lia.
Qed.

(** A digit character is none of the characters the parser treats apart. *)
Lemma ascii_of_digit_neq d c :
  is_dec_digit d → is_digit c = false → ascii_of_digit d ≠ c.
Proof. intros Hd Hc Heq. rewrite <-Heq, is_digit_of_digit in Hc by done. done. Qed.

Lemma string_of_digits_cons d ds :
  string_of_digits (d :: ds) = String (ascii_of_digit d) (string_of_digits ds).
Proof. done. Qed.

Lemma str_forall_digits (p : ascii → bool) ds :
  Forall is_dec_digit ds → (∀ d, is_dec_digit d → p (ascii_of_digit d) = true) →
  str_forall p (string_of_digits ds) = true.
Proof.
  intros Hds Hp. induction Hds as [|d ds Hd Hds IH]; [done|].
  rewrite string_of_digits_cons. simpl. by rewrite Hp, IH.
Qed.

Lemma py_digits_digit c r :
  is_digit c = true → py_digits (String c r) = cons (digit_value c) <$> py_digits r.
Proof. intros Hc. simpl. by rewrite Hc. Qed.

Lemma py_digits_string_of_digits ds :
  Forall is_dec_digit ds → py_digits (string_of_digits ds) = Some ds.
Proof.
  induction 1 as [|d ds Hd Hds IH]; [done|].
  rewrite string_of_digits_cons, py_digits_digit by (by apply is_digit_of_digit).
  by rewrite IH, digit_value_of_digit.
Qed.

Lemma py_digits_Forall s ds : py_digits s = Some ds → Forall is_dec_digit ds.
Proof.
  revert ds. induction s as [|c r IH]; simpl; intros ds Hs.
  { injection Hs as <-. constructor. }
  destruct (is_digit c) eqn:Hc.
  - destruct (py_digits r) as [ds'|] eqn:E; simpl in Hs; [|done].
    injection Hs as <-. constructor; [|by apply IH].
    unfold is_digit, digit_value, is_dec_digit in *.
    apply andb_true_iff in Hc as [H1 H2]. apply Nat.leb_le in H1, H2. lia.
  - case_bool_decide; [|done]. destruct r as [|d r']; [done|].
    destruct (is_digit d); [by apply IH|done].
Qed.

Lemma digits_value_snoc ds d : digits_value (ds ++ [d]) = 10 * digits_value ds + d.
Proof. unfold digits_value. by rewrite foldl_app. Qed.

(** [n] decimal digits denote a value below [10^n]. *)
Lemma digits_value_bound ds :
  Forall is_dec_digit ds → 0 ≤ digits_value ds < 10 ^ Z.of_nat (length ds).
Proof.
  induction ds as [|d ds IH] using rev_ind; [intros _; cbn; lia|].
  intros [Hds [Hd _]%Forall_cons]%Forall_app. specialize (IH Hds).
  rewrite digits_value_snoc, length_app, Nat2Z.inj_add, Z.pow_add_r by lia.
  red in Hd. simpl. lia.
Qed.

Lemma digits_rev_Forall f n : Forall is_dec_digit (digits_rev f n).
Proof.
  revert n. induction f as [|f IH]; intros n; simpl; [constructor|].
  destruct (n <=? 0); constructor; [|done]. red. apply Z.mod_pos_bound. lia.
Qed.

Lemma digits_rev_value f n :
  0 ≤ n < 10 ^ Z.of_nat f → digits_value (rev (digits_rev f n)) = n.
Proof.
  revert n. induction f as [|f IH]; intros n Hn; [cbn in *; lia|].
  rewrite Nat2Z.inj_succ, Z.pow_succ_r in Hn by lia. cbn [digits_rev].
  destruct (Z.leb_spec n 0); [cbn; lia|].
  cbn [rev]. rewrite digits_value_snoc, IH.
  - pose proof (Z_div_mod_eq_full n 10). lia.
  - split; [apply Z.div_pos; lia|]. apply Z.div_lt_upper_bound; lia.
Qed.

Lemma digits_rev_length f n k :
  n < 10 ^ Z.of_nat k → (length (digits_rev f n) ≤ k)%nat.
Proof.
  revert n k. induction f as [|f IH]; intros n k Hn; cbn [digits_rev length]; [lia|].
  destruct (Z.leb_spec n 0); cbn [length]; [lia|].
  destruct k as [|k]; [cbn in Hn; lia|].
  rewrite Nat2Z.inj_succ, Z.pow_succ_r in Hn by lia.
  enough (length (digits_rev f (n / 10)) ≤ k)%nat by lia.
  apply IH. apply Z.div_lt_upper_bound; lia.
Qed.

(** A positive [n] has at most [log2 n + 1] decimal digits: the fuel of
    [decimal_digits] is enough. *)
Lemma decimal_fuel n : 0 < n → n < 10 ^ Z.of_nat (S (Z.to_nat (Z.log2 n))).
Proof.
  intros Hn. pose proof (Z.log2_spec n Hn) as [_ Hlt].
  pose proof (Z.log2_nonneg n).
  rewrite Nat2Z.inj_succ, Z2Nat.id by done.
  eapply Z.lt_le_trans; [apply Hlt|]. apply Z.pow_le_mono_l. lia.
Qed.

Lemma decimal_digits_Forall n : Forall is_dec_digit (decimal_digits n).
Proof.
  unfold decimal_digits. destruct (n =? 0).
  - repeat constructor; lia.
  - apply Forall_rev, digits_rev_Forall.
Qed.

Lemma decimal_digits_value n : 0 ≤ n → digits_value (decimal_digits n) = n.
Proof.
  intros Hn. unfold decimal_digits. destruct (Z.eqb_spec n 0); [by subst|].
  apply digits_rev_value. split; [done|]. apply decimal_fuel. lia.
Qed.

Lemma decimal_digits_length n k :
  n < 10 ^ Z.of_nat k → (1 ≤ k)%nat → (length (decimal_digits n) ≤ k)%nat.
Proof.
  intros Hn Hk. unfold decimal_digits. destruct (n =? 0); [cbn; lia|].
  rewrite length_rev. by apply digits_rev_length.
Qed.

(** The first character of [str(n)] is a digit. *)
Lemma decimal_digits_head n : 0 ≤ n → ∃ d ds, decimal_digits n = d :: ds.
Proof.
  intros Hn. unfold decimal_digits. destruct (Z.eqb_spec n 0); [by eexists _, _|].
  cbn [digits_rev]. destruct (Z.leb_spec n 0); [lia|].
  cbn [rev]. destruct (rev (digits_rev _ (n / 10))) as [|d ds]; by eexists _, _.
Qed.

(** ** [int] on signed digit strings *)

Lemma py_sign_cases t sign body : py_sign t = (sign, body) → sign = 1 ∨ sign = -1.
Proof.
  unfold py_sign. destruct t as [|c r]; [intros [= <- _]; by left|].
  repeat case_bool_decide; intros [= <- _]; auto.
Qed.

Lemma py_sign_minus s : py_sign (String "-" s) = (-1, s).
Proof. reflexivity. Qed.

Lemma py_sign_digit d s : is_dec_digit d → py_sign (String (ascii_of_digit d) s) = (1, String (ascii_of_digit d) s).
Proof.
  intros Hd. unfold py_sign.
  rewrite !bool_decide_false; [done| |]; by apply ascii_of_digit_neq.
Qed.

(** After the sign, [int] reads the digits [ds] and checks their count. *)
Lemma py_int_body t sign ds :
  Forall is_dec_digit ds → ds ≠ [] →
  py_sign (strip_with is_c_space t) = (sign, string_of_digits ds) →
  py_int t = if (length ds <=? max_str_digits)%nat then Some (sign * digits_value ds) else None.
Proof.
  intros Hds Hne Hs. unfold py_int. rewrite Hs. unfold py_int_digits.
  destruct ds as [|d ds']; [done|]. apply Forall_cons in Hds as Hd.
  rewrite string_of_digits_cons, is_digit_of_digit by apply Hd.
  rewrite <-string_of_digits_cons, py_digits_string_of_digits by done. done.
Qed.

Lemma no_space_digits ds :
  Forall is_dec_digit ds → str_forall (negb ∘ is_c_space) (string_of_digits ds) = true.
Proof.
  intros Hds. apply str_forall_digits; [done|].
  intros d Hd. unfold compose. by rewrite is_c_space_of_digit.
Qed.

(** [int(str(z))] is [z] unless [str(z)] has more digits than the limit. *)
Lemma py_int_py_str_int_digits z :
  py_int (py_str_int z) =
  if (length (decimal_digits (Z.abs z)) <=? max_str_digits)%nat then Some z else None.
Proof.
  pose proof (decimal_digits_Forall (Z.abs z)) as Hds.
  destruct (decimal_digits_head (Z.abs z)) as (d & ds & Hhd); [lia|].
  assert (decimal_digits (Z.abs z) ≠ []) as Hne by (by rewrite Hhd).
  pose proof (decimal_digits_value (Z.abs z) ltac:(lia)) as Hv.
  unfold py_str_int. destruct (Z.ltb_spec z 0).
  - rewrite Z.abs_neq in Hds, Hhd, Hne, Hv |- * by lia.
    rewrite (py_int_body _ (-1) (decimal_digits (- z))); [|done|done|].
    + rewrite Hv. by destruct (_ <=? _)%nat; [f_equal; lia|].
    + rewrite strip_with_id; [done|]. simpl. by apply no_space_digits.
  - rewrite Z.abs_eq in Hds, Hhd, Hne, Hv |- * by lia.
    rewrite (py_int_body _ 1 (decimal_digits z)); [|done|done|].
    + rewrite Hv. by destruct (_ <=? _)%nat; [f_equal; lia|].
    + rewrite strip_with_id by (by apply no_space_digits).
      rewrite Hhd, string_of_digits_cons. apply py_sign_digit.
      rewrite Hhd in Hds. by apply Forall_cons in Hds as [? _].
Qed.

(** ** Characters of numbers and the first character of a field *)

(** The characters [str(int)] produces: digits and the minus sign. *)
Definition is_num_char (c : ascii) : bool := is_digit c || bool_decide (c = "-"%char).

Lemma str_forall_impl (p q : ascii → bool) s :
  (∀ c, p c = true → q c = true) → str_forall p s = true → str_forall q s = true.
Proof.
  intros Hpq. induction s as [|c r IH]; cbn [str_forall]; [done|].
  intros [Hc Hr]%andb_true_iff. by rewrite Hpq, IH.
Qed.

Lemma str_forall_concat (p : ascii → bool) sep ws :
  str_forall p sep = true → Forall (λ w, str_forall p w = true) ws →
  str_forall p (String.concat sep ws) = true.
Proof.
  intros Hsep. induction 1 as [|w ws Hw Hws IH]; [done|].
  destruct ws as [|w' ws]; [done|].
  change (String.concat sep (w :: w' :: ws)) with (w +:+ sep +:+ String.concat sep (w' :: ws)).
  by rewrite !str_forall_app, Hw, Hsep, IH.
Qed.

Lemma is_digit_not_space c : is_digit c = true → is_py_space c = false.
Proof.
  unfold is_digit, is_py_space. intros [H1 H2]%andb_true_iff.
  apply Nat.leb_le in H1, H2.
  repeat match goal with |- context [Nat.leb ?a ?b] => destruct (Nat.leb_spec a b) end;
    simpl; lia.
Qed.

Lemma is_digit_not_c_space c : is_digit c = true → is_c_space c = false.
Proof.
  unfold is_digit, is_c_space. cbv zeta. intros [H1 H2]%andb_true_iff.
  apply Nat.leb_le in H1, H2. apply orb_false_iff. split.
  - apply andb_false_iff. right. apply Nat.leb_gt. lia.
  - apply Nat.eqb_neq. lia.
Qed.

Lemma py_str_int_chars z : str_forall is_num_char (py_str_int z) = true.
Proof.
  assert (∀ n, str_forall is_num_char (string_of_digits (decimal_digits n)) = true) as Hd.
  { intros n. apply str_forall_digits; [apply decimal_digits_Forall|].
    intros d Hd. unfold is_num_char. by rewrite is_digit_of_digit. }
  unfold py_str_int. destruct (z <? 0); [|done]. cbn [str_forall]. by rewrite Hd.
Qed.

(** [str(z)] starts with a digit or the minus sign. *)
Lemma py_str_int_head z : ∃ c r, py_str_int z = String c r ∧ is_num_char c = true.
Proof.
  unfold py_str_int. destruct (Z.ltb_spec z 0); [by eexists _, _|].
  destruct (decimal_digits_head z) as (d & ds & Hhd); [lia|].
  pose proof (decimal_digits_Forall z) as Hf. rewrite Hhd in Hf.
  apply Forall_cons in Hf as [Hd _].
  rewrite Hhd, string_of_digits_cons. eexists _, _. split; [done|].
  unfold is_num_char. by rewrite is_digit_of_digit.
Qed.

(** [int] fails on a field that starts with a character other than
    whitespace, a digit or a sign. *)
Lemma py_int_other_head c w :
  is_c_space c = false → is_digit c = false → c ≠ "+"%char → c ≠ "-"%char →
  py_int (String c w) = None.
Proof.
  intros Hs Hd Hp Hm. unfold py_int, strip_with. cbn [py_lstrip py_rstrip]. rewrite Hs.
  simpl. rewrite Hs. simpl. unfold py_sign.
  rewrite (bool_decide_false (c = "+"%char)), (bool_decide_false (c = "-"%char)) by done.
  unfold py_int_digits. by rewrite Hd.
Qed.

Lemma length_py_split s sep : (1 ≤ length (py_split s sep))%nat.
Proof. unfold py_split. destruct (split_aux sep s). simpl. lia. Qed.

(** ** The contract of [int] *)

(** Round trip: [int(str(z))] is [z] for every integer of at most 4300
    digits. *)
Theorem py_int_py_str_int z :
  Z.abs z < 10 ^ Z.of_nat max_str_digits → py_int (py_str_int z) = Some z.
Proof.
  intros Hz. rewrite py_int_py_str_int_digits.
  rewrite (proj2 (Nat.leb_le _ _)); [done|].
  apply decimal_digits_length; [done|]. unfold max_str_digits. lia.
Qed.

(** C20: [int] refuses the decimal text of an integer of more than 4300
    digits ([ValueError: Exceeds the limit (4300 digits) for integer string
    conversion]). *)
Theorem py_int_digit_limit z :
  10 ^ Z.of_nat max_str_digits ≤ Z.abs z → py_int (py_str_int z) = None.
Proof.
  intros Hz. rewrite py_int_py_str_int_digits.
  destruct (Nat.leb_spec (length (decimal_digits (Z.abs z))) max_str_digits) as [Hl|]; [|done].
  exfalso. pose proof (digits_value_bound _ (decimal_digits_Forall (Z.abs z))) as Hb.
  rewrite decimal_digits_value in Hb by lia.
  assert (10 ^ Z.of_nat (length (decimal_digits (Z.abs z))) ≤ 10 ^ Z.of_nat max_str_digits)
    by (apply Z.pow_le_mono_r; lia).
  lia.
Qed.

(** C21: every integer [int] accepts has at most 4300 digits. *)
Theorem py_int_bound s z : py_int s = Some z → Z.abs z < 10 ^ Z.of_nat max_str_digits.
Proof.
  unfold py_int. destruct (py_sign (strip_with is_c_space s)) as [sign body] eqn:Hs.
  unfold py_int_digits.
  apply py_sign_cases in Hs.
  destruct body as [|d r]; [done|]. destruct (is_digit d); [|done].
  destruct (py_digits (String d r)) as [ds|] eqn:Hds; simpl; [|done].
  destruct (Nat.leb_spec (length ds) max_str_digits) as [Hl|]; [|done].
  intros [= <-]. apply py_digits_Forall, digits_value_bound in Hds.
  assert (10 ^ Z.of_nat (length ds) ≤ 10 ^ Z.of_nat max_str_digits)
    by (apply Z.pow_le_mono_r; lia).
  destruct Hs; subst sign; lia.
Qed.

(** Leading whitespace of a class is removed by its strip. *)
Lemma strip_with_app_l ws s t :
  str_forall ws s = true → strip_with ws (s +:+ t) = strip_with ws t.
Proof. intros Hs. unfold strip_with. by rewrite py_lstrip_app, Hs. Qed.

(** C23: [int] skips exactly the C whitespace around a number.  Surrounding
    a field with tabs, newlines, vertical tabs, form feeds, carriage
    returns or spaces never changes what [int] returns.  A field starting
    with one of the separators [\x1c]-[\x1f] is refused, whatever follows,
    although [str.strip] would have removed that character. *)
Theorem py_int_whitespace :
  (∀ w1 s w2, str_forall is_c_space w1 = true → str_forall is_c_space w2 = true →
     py_int (w1 +:+ s +:+ w2) = py_int s) ∧
  (∀ c s, (28 ≤ Ascii.nat_of_ascii c ≤ 31)%nat →
     is_py_space c = true ∧ py_int (String c s) = None).
Proof.
  split.
  - intros w1 s w2 H1 H2. unfold py_int.
    by rewrite strip_with_app_l, strip_with_app_space.
  - intros c s Hc. unfold is_py_space. cbv zeta. split.
    + apply orb_true_iff. right. apply andb_true_iff. split; apply Nat.leb_le; lia.
    + apply py_int_other_head.
      * unfold is_c_space. cbv zeta. apply orb_false_iff. split.
        -- apply andb_false_iff. right. apply Nat.leb_gt. lia.
        -- apply Nat.eqb_neq. lia.
      * unfold is_digit. cbv zeta. apply andb_false_iff. left. apply Nat.leb_gt. lia.
      * intros ->. vm_compute in Hc. lia.
      * intros ->. vm_compute in Hc. lia.
Qed.

(** ** Underscores between digits *)

Lemma py_digits_cons c r :
  py_digits (String c r) =
  if is_digit c then cons (digit_value c) <$> py_digits r
  else if bool_decide (c = "_"%char) then
    match r with
    | String d _ => if is_digit d then py_digits r else None
    | EmptyString => None
    end
  else None.
Proof. reflexivity. Qed.

(** [py_digits] reads an underscore between two digits as nothing. *)
Lemma py_digits_underscore a d1 d2 b :
  is_digit d1 = true → is_digit d2 = true →
  py_digits (a +:+ String d1 (String "_" (String d2 b))) =
  py_digits (a +:+ String d1 (String d2 b)).
Proof.
  intros H1 H2. induction a as [|c a IH]; cbn [String.append].
  - rewrite !(py_digits_cons d1), H1. f_equal.
    rewrite py_digits_cons. change (is_digit "_") with false. cbv iota.
    by rewrite bool_decide_true, H2.
  - rewrite !(py_digits_cons c). destruct (is_digit c); [by rewrite IH|].
    case_bool_decide; [|done].
    destruct a as [|e a]; cbn [String.append] in *; [by rewrite H1|by destruct (is_digit e)].
Qed.

Lemma py_rstrip_cons ws c r : ws c = false → py_rstrip ws (String c r) = String c (py_rstrip ws r).
Proof. intros Hc. simpl. by rewrite Hc. Qed.

Lemma py_rstrip_app_nonempty ws s t :
  py_rstrip ws t ≠ EmptyString → py_rstrip ws (s +:+ t) = s +:+ py_rstrip ws t.
Proof.
  intros Ht. induction s as [|c s IH]; simpl; [done|]. rewrite IH.
  rewrite (bool_decide_false (s +:+ _ = EmptyString)), andb_false_r; [done|].
  destruct s; simpl; [done|discriminate].
Qed.

(** Stripping a text whose middle starts with a non-space character [c]:
    the part before [c] loses its leading whitespace, the part after [c]
    its trailing whitespace. *)
Lemma strip_with_middle ws s c r :
  ws c = false →
  strip_with ws (s +:+ String c r) =
  (if str_forall ws s then EmptyString else py_lstrip ws s) +:+ String c (py_rstrip ws r).
Proof.
  intros Hc. unfold strip_with. rewrite py_lstrip_app.
  destruct (str_forall ws s); simpl; rewrite ?Hc; [by rewrite py_rstrip_cons|].
  rewrite py_rstrip_app_nonempty; rewrite py_rstrip_cons by done; [done|discriminate].
Qed.

(** After the sign, an underscore between two digits changes nothing. *)
Lemma py_int_digits_underscore sign a d1 d2 b :
  is_digit d1 = true → is_digit d2 = true →
  py_int_digits sign (a +:+ String d1 (String "_" (String d2 b))) =
  py_int_digits sign (a +:+ String d1 (String d2 b)).
Proof.
  intros H1 H2. unfold py_int_digits.
  rewrite py_digits_underscore by done. by destruct a.
Qed.

(** C22: an underscore between two digits never changes what [int]
    returns: ["1_000"] reads as ["1000"], and underscores do not count
    towards the 4300-digit limit. *)
Theorem py_int_underscore s1 d1 d2 s2 :
  is_digit d1 = true → is_digit d2 = true →
  py_int (s1 +:+ String d1 (String "_" (String d2 s2))) =
  py_int (s1 +:+ String d1 (String d2 s2)).
Proof.
  intros H1 H2. unfold py_int.
  rewrite !strip_with_middle by (by apply is_digit_not_c_space).
  rewrite !py_rstrip_cons by (done || by apply is_digit_not_c_space).
  set (p := if str_forall is_c_space s1 then EmptyString else py_lstrip is_c_space s1).
  assert (Hsign : ∀ d, is_digit d = true → d ≠ "+"%char ∧ d ≠ "-"%char).
  { intros d Hd. split; intros ->; discriminate. }
  destruct p as [|c p'].
  - simpl. unfold py_sign. destruct (Hsign d1 H1).
    rewrite !bool_decide_false by done.
    apply (py_int_digits_underscore 1 EmptyString); done.
  - cbn [String.append]. unfold py_sign.
    repeat case_bool_decide; subst;
      first [ apply (py_int_digits_underscore _ p'); done
            | apply (py_int_digits_underscore _ (String c p')); done ].
Qed.

(** ** Witnesses *)

Lemma py_int_digit_limit_witness :
  10 ^ Z.of_nat max_str_digits ≤ Z.abs (10 ^ 4300) ∧ py_int (py_str_int (10 ^ 4300)) = None.
Proof.
  assert (H : 10 ^ Z.of_nat max_str_digits ≤ Z.abs (10 ^ 4300)) by (vm_compute; discriminate).
  split; [exact H|]. exact (py_int_digit_limit _ H).
Defined.

Lemma py_int_bound_witness :
  py_int "-42" = Some (-42) ∧ Z.abs (-42) < 10 ^ Z.of_nat max_str_digits.
Proof.
  assert (H : py_int "-42" = Some (-42)) by (vm_compute; reflexivity).
  split; [exact H|]. exact (py_int_bound _ _ H).
Defined.

Lemma py_int_underscore_witness :
  is_digit "1" = true ∧ is_digit "0" = true ∧
  py_int (" " +:+ String "1" (String "_" (String "0" "00 "))) =
  py_int (" " +:+ String "1" (String "0" "00 ")).
Proof.
  assert (H1 : is_digit "1" = true) by reflexivity.
  assert (H2 : is_digit "0" = true) by reflexivity.
  split_and!; [exact H1|exact H2|]. exact (py_int_underscore " " "1" "0" "00 " H1 H2).
Defined.
