(* ===== verification/Console.v ===== *)
(** * Console output of [src/main.py]

    Each [print] call of the script is one constructor of [event].  It carries
    the values that the f-string interpolates.  A run's output is the list of
    events in the order printed.  The text is not modelled, only which
    message and with which values.  The events are produced in the writer
    monad [W event] of the prelude. *)

From stdpp Require Import strings.
From S2P Require Import Prelude.

Inductive event : Type :=
  (** line 13: [Error: File '{filename}' not found.] *)
  | EvFileNotFound (filename : string)
  (** line 18: [Error: File '{filename}' is empty.] *)
  | EvFileEmpty (filename : string)
  (** line 32: [Warning: Could not parse line: {line.strip()}. Skipping.] *)
  | EvSkipLine (stripped : string)
  (** line 36: [Error: No valid matrix data found in file.] *)
  | EvNoData
  (** line 42: [Error: Matrix rows have inconsistent number of columns.] *)
  | EvInconsistentColumns
  (** line 70: [Error during column sum check: {e}] *)
  | EvColumnSumError
  (** line 80: [Exiting due to matrix reading error.] *)
  | EvExiting
  (** line 85: [Matrix is empty. Cannot solve.] *)
  | EvMatrixEmpty
  (** line 89: [Matrix rows are empty. Cannot solve.] *)
  | EvRowsEmpty
  (** line 98: [Trying {total_combinations} possible shift combinations...] *)
  | EvTrying (total : Z)
  (** line 102: [Checked {i+1}/{total_combinations} combinations...] *)
  | EvProgress (checked : nat) (total : Z)
  (** line 111: [Solution found!] *)
  | EvSolutionFound
  (** line 112: [Shifts applied (...): {shift_combination}] *)
  | EvShiftsApplied (shifts : list Z)
  (** line 113: [Resulting matrix:] *)
  | EvResultingMatrix
  (** line 115: one row of the resulting matrix *)
  | EvRow (row : list Z)
  (** line 118: [No solution found after checking all combinations.] *)
  | EvNoSolution.

#[export] Instance event_eq_dec : EqDecision event.
Proof. solve_decision. Defined.

(** Computations of the script: a value and the events printed. *)
Abbreviation IO := (W event).
