(* ===== verification/ShiftRow.v ===== *)
(** * Row Shifter: [shift_row] of [src/main.py] (lines 47-58)

    [shift_row row k] rotates [row] right by [k]: the last [k mod n] elements
    move to the front.  The definition uses the Python slices of the source,
    [row[-e:] + row[:-e]].  When [e = 0] those slices are [row[0:]] and
    [row[:0]], and [shift_row_rotate] shows the result is still the rotation.
    That lemma relates the slice form to stdpp's left rotation [rotate].  The
    other properties are derived from it: lookup, length, reduction of the
    amount modulo [n], composition, the round trip and the permutation. *)

From S2P Require Import Prelude Python.

Local Open Scope Z_scope.

(** Lines 47-58.  Python's [shift_amount % n] is floor modulo, [Z.modulo]. *)
Definition shift_row {A} (row : list A) (shift_amount : Z) : list A :=
  match row with
  | [] => []
  | _ :: _ =>
      let n := Z.of_nat (length row) in
      let effective_shift := shift_amount mod n in
      py_slice row (Some (- effective_shift)) None
        ++ py_slice row None (Some (- effective_shift))
  end.

(** The left-rotation amount that a right shift by [k] amounts to. *)
Definition right_to_left (k : Z) (n : nat) : nat := Z.to_nat ((- k) mod Z.of_nat n).

(** ** Arithmetic of the effective shift *)

Lemma neg_mod_zero (k n : Z) : 0 < n → k mod n = 0 → (- k) mod n = 0.
Proof. intros. apply Z.mod_opp_l_z; lia. Qed.

Lemma neg_mod_complement (k n : Z) :
  0 < n → k mod n ≠ 0 → (- k) mod n = n - k mod n.
Proof. intros. rewrite Z.mod_opp_l_nz by lia. done. Qed.

(** ** Slice form and rotation *)

Section Rotation.
Context {A : Type}.
Implicit Types row : list A.

(** The slices of line 58 are a left rotation by [(-k) mod n]. *)
Lemma shift_row_rotate row (k : Z) :
  shift_row row k = rotate (right_to_left k (length row)) row.
Proof.
  destruct row as [|x xs] eqn:Erow.
  { unfold rotate. by rewrite drop_nil, take_nil. }
  rewrite <-Erow.
  assert (Hn : (0 < length row)%nat) by (subst; simpl; lia).
  unfold shift_row, right_to_left, rotate. rewrite Erow at 1. clear x xs Erow.
  pose proof (Z.mod_pos_bound k (Z.of_nat (length row))) as Hb.
  destruct (decide (k mod Z.of_nat (length row) = 0)) as [He|He].
  - rewrite He, neg_mod_zero by lia. simpl.
    rewrite py_slice_zero_start, py_slice_zero_stop, Nat.Div0.mod_0_l.
    by rewrite app_nil_r, drop_0, take_0, app_nil_r.
  - rewrite neg_mod_complement by lia.
    replace (k mod Z.of_nat (length row))
      with (Z.of_nat (Z.to_nat (k mod Z.of_nat (length row)))) by lia.
    rewrite py_slice_neg_start, py_slice_neg_stop by lia.
    rewrite Nat.mod_small by lia.
    replace (Z.to_nat (Z.of_nat (length row) - Z.of_nat (Z.to_nat (k mod Z.of_nat (length row)))))
      with (length row - Z.to_nat (k mod Z.of_nat (length row)))%nat by lia.
    done.
Qed.
End Rotation.

(** ** Properties of [shift_row] *)

Section Properties.
Context {A : Type}.
Implicit Types row : list A.

Lemma length_shift_row row k : length (shift_row row k) = length row.
Proof. by rewrite shift_row_rotate, length_rotate. Qed.

(** The shifted row has the elements of the row. *)
Lemma elem_of_shift_row row k x : x ∈ shift_row row k ↔ x ∈ row.
Proof. by rewrite shift_row_rotate, elem_of_rotate. Qed.

Lemma Forall_shift_row (P : A → Prop) row k : Forall P row → Forall P (shift_row row k).
Proof. rewrite !Forall_forall. intros H x Hx%elem_of_shift_row. by apply H. Qed.

(** Element [j] of the shifted row is element [(j - k) mod n] of the
    original row. *)
Lemma shift_row_lookup row k (j : nat) :
  (j < length row)%nat →
  shift_row row k !! j = row !! Z.to_nat ((Z.of_nat j - k) mod Z.of_nat (length row)).
Proof.
  intros Hj. rewrite shift_row_rotate, lookup_rotate_r by done.
  unfold rotate_nat_add, right_to_left. do 2 f_equal.
  rewrite Z2Nat.id by (apply Z.mod_pos_bound; lia).
  rewrite Zplus_mod_idemp_l. f_equal. lia.
Qed.

(** Two shifts of the same row agree when their amounts are congruent
    modulo the row length. *)
Lemma shift_row_congr row a b :
  a mod Z.of_nat (length row) = b mod Z.of_nat (length row) →
  shift_row row a = shift_row row b.
Proof.
  intros Hab. apply list_eq_lookup_lt; [by rewrite !length_shift_row|].
  rewrite length_shift_row. intros j Hj.
  rewrite !shift_row_lookup by done.
  rewrite <-(Z_sub_mod_mod_r _ a), <-(Z_sub_mod_mod_r _ b), Hab. done.
Qed.

(** Shifting by [a] and then by [b] is shifting by [a + b]. *)
Lemma shift_row_shift_row row a b :
  shift_row (shift_row row a) b = shift_row row (a + b).
Proof.
  apply list_eq_lookup_lt; [by rewrite !length_shift_row|].
  rewrite !length_shift_row. intros j Hj.
  rewrite shift_row_lookup by (by rewrite length_shift_row).
  rewrite length_shift_row, shift_row_lookup by (apply Z_to_nat_mod_lt; lia).
  rewrite shift_row_lookup by done.
  rewrite Z2Nat.id by (apply Z.mod_pos_bound; lia).
  rewrite Z_sub_mod_mod_l. do 3 f_equal. lia.
Qed.

(** A shift by a multiple of the row length is the identity. *)
Lemma shift_row_id_mod row a :
  a mod Z.of_nat (length row) = 0 → shift_row row a = row.
Proof.
  intros Ha. apply list_eq_lookup_lt; [apply length_shift_row|].
  rewrite length_shift_row. intros j Hj.
  rewrite shift_row_lookup, <-Z_sub_mod_mod_r, Ha, Z.sub_0_r, Z.mod_small, Nat2Z.id
    by lia.
  done.
Qed.
End Properties.

(** ** The contract of the row shifter *)

Section Contract.
Context {A : Type}.
Implicit Types row : list A.

(** C6: [shift_row row k] is the last [e] elements of [row] followed by its
    first [n - e] elements, where [n] is the length and [e = k mod n]; the
    empty row is returned unchanged. *)
Theorem shift_row_last_first row (k : Z) :
  let n := length row in
  let e := Z.to_nat (k mod Z.of_nat n) in
  shift_row row k = drop (n - e) row ++ take (n - e) row.
Proof.
  simpl. rewrite shift_row_rotate. unfold rotate, right_to_left.
  destruct (decide (length row = 0%nat)) as [Hn|Hn].
  { by rewrite (nil_length_inv row Hn), !drop_nil, !take_nil. }
  pose proof (Z.mod_pos_bound k (Z.of_nat (length row))) as Hb.
  destruct (decide (k mod Z.of_nat (length row) = 0)) as [He|He].
  - rewrite He, neg_mod_zero, Nat.Div0.mod_0_l by lia. simpl.
    rewrite Nat.sub_0_r, drop_all, (take_ge row (length row)) by lia.
    by rewrite drop_0, take_0, app_nil_r.
  - rewrite neg_mod_complement, Nat.mod_small by lia.
    do 2 f_equal; lia.
Qed.

(** C27: shifting by [k] and by [k mod n] give the same row. *)
Theorem shift_row_mod_invariant row (k : Z) :
  shift_row row k = shift_row row (k mod Z.of_nat (length row)).
Proof.
  destruct (decide (length row = 0%nat)) as [Hn|Hn].
  { by rewrite (nil_length_inv row Hn). }
  apply shift_row_congr. rewrite Z.mod_mod by lia. done.
Qed.

(** C29: shifting by [0] returns the row unchanged. *)
Theorem shift_row_zero row : shift_row row 0 = row.
Proof. apply shift_row_id_mod, Zmod_0_l. Qed.

(** C26: round trip: shifting by [k] and then by [n - k mod n] restores
    the original row. *)
Theorem shift_row_roundtrip row (k : Z) :
  let n := Z.of_nat (length row) in
  shift_row (shift_row row k) (n - k mod n) = row.
Proof.
  simpl. rewrite shift_row_shift_row. apply shift_row_id_mod.
  destruct (decide (length row = 0%nat)) as [Hn|Hn].
  { rewrite Hn. simpl. rewrite !Z.mod_0_r. lia. }
  pose proof (Z_div_mod_eq_full k (Z.of_nat (length row))).
  replace (k + (Z.of_nat (length row) - k mod Z.of_nat (length row)))
    with ((k / Z.of_nat (length row) + 1) * Z.of_nat (length row)) by lia.
  apply Z.mod_mul. lia.
Qed.

(** C28: the shifted row is a permutation of the original row. *)
Theorem shift_row_permutation row (k : Z) : shift_row row k ≡ₚ row.
Proof.
  rewrite shift_row_rotate. unfold rotate.
  rewrite Permutation_app_comm. by rewrite take_drop.
Qed.
End Contract.
