(* ===== verification/ColumnSums.v ===== *)
(** * Column Sum Checker: [check_column_sums] of [src/main.py] (lines 60-71)

    The function guards the empty cases.  It builds [np.array(matrix_list)]
    and compares [sum(axis=0)] with the target.  A NumPy error is caught,
    printed and answered with [False].  The arithmetic depends on the array's
    dtype, which NumPy chooses from the Python ints:
    - every value fits int64: int64, and sums wrap around modulo 2^64;
    - every value lies in [2^63, 2^64), so fits only uint64: uint64, and
      sums wrap around modulo 2^64;
    - values of both kinds: the common type of int64 and uint64, float64.
      Every value and partial sum is rounded to 53 significant bits;
    - some value fits neither: object, and sums are exact Python ints.
    A ragged list raises [ValueError] (NumPy 1.24 and later).

    [np_sum_axis0] is [sum(axis=0)] of the C-contiguous array.  With two or
    more columns, the rows are added element-wise in order.  A float64
    array of one column is reduced along its only axis with NumPy's
    [pairwise_sum], whose order of additions differs from the row order
    from eight rows on.  The exact specification
    is [columns_sum_to].  The theorems state when the check agrees with it:
    always for object dtype, and for int64 when no column sum overflows.
    They also show that an overflowing column can make the check pass. *)

From S2P Require Import Prelude Console.

Local Open Scope Z_scope.

Abbreviation matrix := (list (list Z)).

(** ** Machine integers of NumPy *)

Definition in_int64 (z : Z) : bool := (- 2^63 <=? z) && (z <? 2^63).
Definition in_uint64 (z : Z) : bool := (0 <=? z) && (z <? 2^64).

(** Two's-complement wrap-around of an int64 result. *)
Definition wrap_int64 (z : Z) : Z := (z + 2^63) mod 2^64 - 2^63.

(** Wrap-around of a uint64 result. *)
Definition wrap_uint64 (z : Z) : Z := z mod 2^64.

(** Rounding of an integer to the nearest float64 value (ties to even).
    Every value met here is an integer, so a float64 is an integer whose
    magnitude has at most 53 significant bits. *)
Definition round_f64 (z : Z) : Z :=
  let a := Z.abs z in
  if a <? 2^53 then z else
  let e := Z.log2 a - 52 in
  let q := a / 2^e in
  let r := a mod 2^e in
  let half := 2^(e - 1) in
  let q' := if r <? half then q
            else if half <? r then q + 1
            else if Z.even q then q else q + 1 in
  Z.sgn z * (q' * 2^e).

(** ** dtype discovery for a list of Python ints *)

Inductive dtype := DInt64 | DUInt64 | DFloat64 | DObject.

#[export] Instance dtype_eq_dec : EqDecision dtype.
Proof. solve_decision. Defined.

(** The dtype NumPy gives one Python int: C long if it fits, then unsigned
    long long, then object. *)
Definition dtype_of_int (z : Z) : dtype :=
  if in_int64 z then DInt64 else if in_uint64 z then DUInt64 else DObject.

(** NumPy's type promotion between two discovered dtypes. *)
Definition promote_types (a b : dtype) : dtype :=
  match a, b with
  | DObject, _ | _, DObject => DObject
  | DFloat64, _ | _, DFloat64 => DFloat64
  | DInt64, DInt64 => DInt64
  | DUInt64, DUInt64 => DUInt64
  | DInt64, DUInt64 | DUInt64, DInt64 => DFloat64
  end.

(** The dtype of [np.array] over the values [xs], in row-major order. *)
Fixpoint discover_dtype (xs : list Z) : dtype :=
  match xs with
  | [] => DInt64
  | [z] => dtype_of_int z
  | z :: rest => promote_types (dtype_of_int z) (discover_dtype rest)
  end.

(** ** Array arithmetic *)

(** Conversion of a Python int into an element of the array. *)
Definition np_cast (d : dtype) (z : Z) : Z :=
  match d with DFloat64 => round_f64 z | _ => z end.

(** Addition of two array elements. *)
Definition np_add (d : dtype) (a b : Z) : Z :=
  match d with
  | DInt64 => wrap_int64 (a + b)
  | DUInt64 => wrap_uint64 (a + b)
  | DFloat64 => round_f64 (a + b)
  | DObject => a + b
  end.

(** The eight-accumulator block of NumPy's [pairwise_sum], for
    [8 <= n <= 128] elements.  Accumulator [j] starts at [a[j]] and adds
    [a[i+j]] for [i = 8, 16, ...] below [n - n % 8].  The accumulators are
    combined as [((r0+r1)+(r2+r3))+((r4+r5)+(r6+r7))], then the last
    [n % 8] elements are added in order. *)
Definition pairwise_block (a : list Z) : Z :=
  let n := length a in
  let m := (n - n mod 8)%nat in
  let r (j : nat) := foldl (np_add DFloat64) (a !!! j)
                       ((λ k, a !!! (8 * k + j)%nat) <$> seq 1 (m / 8 - 1)) in
  let res := np_add DFloat64
               (np_add DFloat64 (np_add DFloat64 (r 0%nat) (r 1%nat))
                                (np_add DFloat64 (r 2%nat) (r 3%nat)))
               (np_add DFloat64 (np_add DFloat64 (r 4%nat) (r 5%nat))
                                (np_add DFloat64 (r 6%nat) (r 7%nat))) in
  foldl (np_add DFloat64) res (drop m a).

(** NumPy's [pairwise_sum] for float64 ([loops_utils.h.src]).  Below 8
    elements it is a plain loop from 0.  Up to 128 elements it is
    [pairwise_block].  Above that, the two halves, split at a multiple of
    8, are summed recursively.  [fuel] bounds the depth of the recursion.
    [pairwise_sum_fuel] shows that [length a] is enough and that any
    larger fuel gives the same sum. *)
Fixpoint pairwise_sum (fuel : nat) (a : list Z) : Z :=
  if (length a <? 8)%nat then foldl (np_add DFloat64) 0 a
  else if (length a <=? 128)%nat then pairwise_block a
  else match fuel with
       | O => foldl (np_add DFloat64) 0 a
       | S f =>
           let n2 := (length a / 2 - (length a / 2) mod 8)%nat in
           np_add DFloat64 (pairwise_sum f (take n2 a)) (pairwise_sum f (drop n2 a))
       end.

(** Element-wise accumulation of the rows: the first row, then each later
    row added element-wise. *)
Definition np_sum_rows (d : dtype) (m : matrix) : list Z :=
  match m with
  | [] => []
  | r :: rs => foldl (λ acc row, zip_with (np_add d) acc (np_cast d <$> row))
                     (np_cast d <$> r) rs
  end.

(** [array.sum(axis=0)].  For a float64 array of one column, the reduction's
    inner loop runs along axis 0.  The output starts at the identity 0, and
    [pairwise_sum] of the column is added to it.  Otherwise the inner loop
    runs along the columns, and the rows are accumulated in order. *)
Definition np_sum_axis0 (d : dtype) (m : matrix) : list Z :=
  match m with
  | r :: _ =>
      if bool_decide (d = DFloat64) && bool_decide (length r = 1%nat)
      then [np_add d 0 (pairwise_sum (length m) (np_cast d <$> concat m))]
      else np_sum_rows d m
  | [] => []
  end.

(** [array == target] for one element: the Python int is converted to the
    array's type (rounded for float64), then compared numerically. *)
Definition np_eq_scalar (d : dtype) (s t : Z) : bool :=
  match d with DFloat64 => s =? round_f64 t | _ => s =? t end.

(** [np.array] succeeds on a list of lists only when all rows have the
    length of the first. *)
Definition rectangular (m : matrix) : bool :=
  match m with
  | [] => true
  | r :: rs => forallb (λ r', Nat.eqb (length r') (length r)) rs
  end.

(** ** The checker, lines 60-71 *)

Definition check_column_sums (matrix_list : matrix) (target_sum : Z) : IO bool :=
  match matrix_list with
  | [] => mret false
  | [] :: _ => mret false
  | _ =>
      if rectangular matrix_list then
        let d := discover_dtype (concat matrix_list) in
        mret (forallb (λ s, np_eq_scalar d s target_sum) (np_sum_axis0 d matrix_list))
      else
        tell [EvColumnSumError];; mret false
  end.

(** ** The exact specification *)

(** Column [j] of [m]. *)
Definition column (m : matrix) (j : nat) : list Z := (λ r, default 0 (r !! j)) <$> m.

(** Column [j] of [m], summed exactly. *)
Definition col_sum (m : matrix) (j : nat) : Z := sum_Z (column m j).

(** [m] is a nonempty matrix of rows of [C > 0] elements. *)
Definition matrix_shape (m : matrix) (C : nat) : Prop :=
  (0 < C)%nat ∧ m ≠ [] ∧ Forall (λ r, length r = C) m.

(** Every column of the nonempty rectangular matrix [m] sums to [t]. *)
Definition columns_sum_to (m : matrix) (t : Z) : Prop :=
  ∃ C, matrix_shape m C ∧ ∀ j, (j < C)%nat → col_sum m j = t.

(** The sum of one column as [np_sum_axis0] accumulates it: the first
    element converted, then each later element converted and added. *)
Definition np_fold (d : dtype) (xs : list Z) : Z :=
  match xs with
  | [] => 0
  | x :: xs => foldl (λ a y, np_add d a (np_cast d y)) (np_cast d x) xs
  end.

Lemma length_column (m : matrix) (j : nat) : length (column m j) = length m.
Proof. unfold column. by rewrite length_fmap. Qed.

(** A property of every entry, and of the default [0], holds of every
    column entry. *)
Lemma column_Forall_entries (P : Z → Prop) (m : matrix) (j : nat) :
  P 0 → Forall (Forall P) m → Forall P (column m j).
Proof.
  intros H0 Hm. unfold column. apply Forall_fmap. eapply Forall_impl; [exact Hm|].
  intros r Hr. simpl. destruct (r !! j) as [x|] eqn:Hx; simpl; [|done].
  rewrite Forall_lookup in Hr. eauto.
Qed.

(** ** Wrap-around arithmetic *)

Lemma wrap_int64_add_l (a b : Z) : wrap_int64 (wrap_int64 a + b) = wrap_int64 (a + b).
Proof.
  unfold wrap_int64. f_equal.
  replace ((a + 2^63) mod 2^64 - 2^63 + b + 2^63) with ((a + 2^63) mod 2^64 + b) by lia.
  rewrite Zplus_mod_idemp_l. f_equal. lia.
Qed.

Lemma wrap_int64_small (z : Z) : in_int64 z = true → wrap_int64 z = z.
Proof.
  unfold in_int64, wrap_int64. rewrite andb_true_iff, Z.leb_le, Z.ltb_lt. intros.
  rewrite Z.mod_small by lia. lia.
Qed.

(** An int64 result equals an int64 target exactly when the true value is
    congruent to it modulo 2^64. *)
Lemma wrap_int64_eq_iff (s t : Z) :
  in_int64 t = true → wrap_int64 s = t ↔ (s - t) mod 2^64 = 0.
Proof.
  unfold in_int64, wrap_int64. rewrite andb_true_iff, Z.leb_le, Z.ltb_lt. intros Ht.
  rewrite Z.mod_divide by lia. split.
  - intros H. exists ((s + 2^63) / 2^64).
    pose proof (Z_div_mod_eq_full (s + 2^63) (2^64)). lia.
  - intros [k Hk]. replace (s + 2^63) with ((t + 2^63) + k * 2^64) by lia.
    rewrite Z_mod_plus_full, Z.mod_small by lia. lia.
Qed.

(** ** The fuel of [pairwise_sum] *)

(** Each recursive call of [pairwise_sum] is on a shorter list: both halves
    are nonempty once there are more than 128 elements. *)
Lemma pairwise_split_lengths (n : nat) :
  (128 < n)%nat →
  let n2 := (n / 2 - (n / 2) mod 8)%nat in (0 < n2 ∧ n2 < n)%nat.
Proof.
  intros Hn n2. pose proof (Nat.div_mod n 2 ltac:(lia)). pose proof (Nat.mod_upper_bound n 2 ltac:(lia)).
  pose proof (Nat.mod_upper_bound (n / 2) 8 ltac:(lia)). pose proof (Nat.Div0.mod_le (n / 2) 8).
  subst n2. lia.
Qed.

(** Once the fuel reaches the length of the list, the sum no longer
    depends on it: the out-of-fuel branch is never taken. *)
Lemma pairwise_sum_fuel (f1 f2 : nat) (a : list Z) :
  (length a ≤ f1)%nat → (length a ≤ f2)%nat → pairwise_sum f1 a = pairwise_sum f2 a.
Proof.
  revert f2 a. induction f1 as [|f1 IH]; intros f2 a H1 H2.
  { destruct a; [|simpl in H1; lia]. by destruct f2. }
  destruct f2 as [|f2]; [destruct a; [done|simpl in H2; lia]|].
  cbn [pairwise_sum].
  destruct (Nat.ltb_spec (length a) 8); [done|].
  destruct (Nat.leb_spec (length a) 128); [done|].
  pose proof (pairwise_split_lengths (length a) ltac:(done)) as [Hlo Hhi].
  f_equal; apply IH; rewrite ?length_take, ?length_drop; lia.
Qed.

(** ** [np_sum_axis0] works column by column *)

Section Columnwise.
Variable d : dtype.

Let step (acc row : list Z) : list Z := zip_with (np_add d) acc (np_cast d <$> row).
Let scalar (a y : Z) : Z := np_add d a (np_cast d y).

Lemma foldl_step_lookup (rs : matrix) (C j : nat) :
  Forall (λ r, length r = C) rs → (j < C)%nat →
  ∀ acc a, length acc = C → acc !! j = Some a →
  foldl step acc rs !! j = Some (foldl scalar a (column rs j)).
Proof.
  intros HC Hj. induction HC as [|row rs Hrow HC IH]; intros acc a Hacc Ha; [done|].
  destruct (lookup_lt_is_Some_2 row j) as [y Hy]; [lia|].
  simpl. apply IH.
  - unfold step. rewrite length_zip_with, length_fmap. lia.
  - unfold step. rewrite lookup_zip_with, list_lookup_fmap, Ha, Hy. done.
Qed.

(** Apart from float64, [sum(axis=0)] accumulates the rows in order. *)
Lemma np_sum_axis0_rows (m : matrix) : d ≠ DFloat64 → np_sum_axis0 d m = np_sum_rows d m.
Proof. intros Hd. destruct m as [|r rs]; [done|]. simpl. by rewrite bool_decide_false. Qed.

(** Entry [j] of the column sums is the fold of column [j]. *)
Lemma np_sum_axis0_lookup (m : matrix) (C j : nat) :
  d ≠ DFloat64 → m ≠ [] → Forall (λ r, length r = C) m → (j < C)%nat →
  np_sum_axis0 d m !! j = Some (np_fold d (column m j)).
Proof.
  intros Hd. rewrite np_sum_axis0_rows by done.
  destruct m as [|r rs]; [done|]. intros _ HC Hj.
  apply Forall_cons in HC as [Hr HC].
  destruct (lookup_lt_is_Some_2 r j) as [x Hx]; [lia|].
  unfold np_sum_rows, column. rewrite fmap_cons. simpl. rewrite Hx. simpl.
  apply (foldl_step_lookup rs C j HC Hj).
  - by rewrite length_fmap.
  - by rewrite list_lookup_fmap, Hx.
Qed.

Lemma length_np_sum_axis0 (m : matrix) (C : nat) :
  d ≠ DFloat64 → m ≠ [] → Forall (λ r, length r = C) m → length (np_sum_axis0 d m) = C.
Proof.
  intros Hd. rewrite np_sum_axis0_rows by done.
  destruct m as [|r rs]; [done|]. intros _ HC.
  apply Forall_cons in HC as [Hr HC]. simpl.
  assert (Hgen : ∀ acc, length acc = C → length (foldl step acc rs) = C).
  { induction HC as [|row rs' Hrow HC IH]; intros acc Hacc; [done|].
    simpl. apply IH. unfold step. rewrite length_zip_with, length_fmap. lia. }
  apply Hgen. by rewrite length_fmap.
Qed.
End Columnwise.

(** ** dtype discovery *)

Lemma dtype_of_int_int64 (z : Z) : dtype_of_int z = DInt64 ↔ in_int64 z = true.
Proof. unfold dtype_of_int. destruct (in_int64 z), (in_uint64 z); naive_solver. Qed.

Lemma promote_types_int64 (a b : dtype) :
  promote_types a b = DInt64 ↔ a = DInt64 ∧ b = DInt64.
Proof. destruct a, b; simpl; intuition congruence. Qed.

Lemma promote_types_object (a b : dtype) :
  promote_types a b = DObject ↔ a = DObject ∨ b = DObject.
Proof. destruct a, b; simpl; intuition congruence. Qed.

(** The array is int64 exactly when every value fits in int64. *)
Lemma discover_dtype_int64 (xs : list Z) :
  discover_dtype xs = DInt64 ↔ Forall (λ z, in_int64 z = true) xs.
Proof.
  induction xs as [|z xs IH]; [split; [constructor|done]|].
  rewrite Forall_cons, <-IH, <-dtype_of_int_int64.
  destruct xs as [|z' xs]; simpl.
  - split; [|naive_solver]. intros H. split; [done|]. done.
  - apply promote_types_int64.
Qed.

(** The array has object dtype exactly when some value fits neither int64
    nor uint64. *)
Lemma discover_dtype_object (xs : list Z) :
  discover_dtype xs = DObject ↔ Exists (λ z, dtype_of_int z = DObject) xs.
Proof.
  induction xs as [|z xs IH]; [split; [done|inversion 1]|].
  rewrite Exists_cons, <-IH.
  destruct xs as [|z' xs]; simpl.
  - split; [naive_solver|]. intros [?|H]; [done|inversion H].
  - apply promote_types_object.
Qed.

(** ** Column sums per dtype *)

Lemma np_fold_object (xs : list Z) : np_fold DObject xs = sum_Z xs.
Proof.
  destruct xs as [|x xs]; [done|]. simpl.
  change (foldl Z.add x xs = x + sum_Z xs). apply foldl_add_sum_Z.
Qed.

Lemma np_fold_int64 (xs : list Z) :
  Forall (λ z, in_int64 z = true) xs → np_fold DInt64 xs = wrap_int64 (sum_Z xs).
Proof.
  destruct xs as [|x xs]; [done|]. intros [Hx _]%Forall_cons. simpl.
  rewrite <-(wrap_int64_small x Hx) at 1. clear Hx. revert x.
  induction xs as [|y xs IH]; intros x; simpl; [f_equal; lia|].
  rewrite wrap_int64_add_l, IH. f_equal. lia.
Qed.

(** Every value of a column is a value of the matrix. *)
Lemma column_Forall (P : Z → Prop) (m : matrix) (C j : nat) :
  Forall (λ r, length r = C) m → (j < C)%nat →
  Forall P (concat m) → Forall P (column m j).
Proof.
  intros HC Hj. induction HC as [|r m Hr HC IH]; [constructor|].
  rewrite concat_cons, Forall_app. intros [Hr' Hm]. unfold column. rewrite fmap_cons.
  constructor; [|by apply IH].
  destruct (lookup_lt_is_Some_2 r j) as [x Hx]; [lia|]. rewrite Hx. simpl.
  rewrite Forall_lookup in Hr'. by eapply Hr'.
Qed.

(** ** The checker read as a proposition *)

Lemma rectangular_Forall (r : list Z) (rs : matrix) :
  rectangular (r :: rs) = true ↔ Forall (λ r', length r' = length r) (r :: rs).
Proof.
  simpl. rewrite forallb_forall, Forall_cons, Forall_forall. split.
  - intros H. split; [done|]. intros r' Hr'%list_elem_of_In. by apply Nat.eqb_eq, H.
  - intros [_ H] r' Hr'. apply Nat.eqb_eq, H. by apply list_elem_of_In.
Qed.

(** The checker answers [True] exactly when the matrix is nonempty,
    rectangular with [C > 0] columns, and the fold of each column, in the
    array's dtype, compares equal to the target. *)
Lemma check_column_sums_true_iff (m : matrix) (t : Z) :
  let d := discover_dtype (concat m) in
  d ≠ DFloat64 →
  val (check_column_sums m t) = true ↔
  ∃ C, matrix_shape m C ∧
       ∀ j, (j < C)%nat → np_eq_scalar d (np_fold d (column m j)) t = true.
Proof.
  intros d Hd. unfold matrix_shape. destruct m as [|r rs].
  { split; [done|]. naive_solver. }
  destruct r as [|x r].
  { split; [done|]. intros (C & (HC & _ & [Hr _]%Forall_cons) & _). simpl in Hr. lia. }
  unfold check_column_sums.
  destruct (rectangular ((x :: r) :: rs)) eqn:Hrect.
  - apply rectangular_Forall in Hrect. rewrite val_ret.
    rewrite forallb_lookup_iff. split.
    + intros H. exists (length (x :: r)). split_and!; [simpl; lia|done|done|].
      intros j Hj. apply H with j.
      apply (np_sum_axis0_lookup _ _ (length (x :: r))); done.
    + intros (C & (_ & _ & HC) & H) j s Hs.
      pose proof (Forall_inv HC) as HCr. simpl in HCr.
      assert (Hj : (j < C)%nat).
      { apply lookup_lt_Some in Hs. by rewrite (length_np_sum_axis0 _ _ C) in Hs. }
      rewrite (np_sum_axis0_lookup _ _ C j) in Hs by done. simplify_eq. by apply H.
  - split; [done|]. intros (C & (_ & _ & HC) & _).
    assert (Forall (λ r', length r' = length (x :: r)) ((x :: r) :: rs)) as Hall.
    { eapply Forall_impl; [exact HC|]. intros r' ->. by apply Forall_inv in HC. }
    apply rectangular_Forall in Hall. congruence.
Qed.

(** A rectangular matrix is checked without printing anything. *)
Lemma check_column_sums_silent (m : matrix) (t : Z) :
  rectangular m = true → out (check_column_sums m t) = [].
Proof. intros Hr. destruct m as [|[|x r] rs]; [done|done|]. simpl in *. by rewrite Hr. Qed.

(** Two column-wise conditions that agree on every column agree. *)
Lemma matrix_columns_iff (m : matrix) (P Q : nat → Prop) :
  (∀ C j, matrix_shape m C → (j < C)%nat → P j ↔ Q j) →
  (∃ C, matrix_shape m C ∧ ∀ j, (j < C)%nat → P j) ↔
  (∃ C, matrix_shape m C ∧ ∀ j, (j < C)%nat → Q j).
Proof.
  intros H. split; intros (C & HC & Hj); exists C; split; try done;
    intros j ?; apply (H C j); auto.
Qed.

(** On int64 data, the fold of a column is the wrapped exact sum. *)
Lemma np_fold_column_int64 (m : matrix) (C j : nat) :
  Forall (λ z, in_int64 z = true) (concat m) → matrix_shape m C → (j < C)%nat →
  np_fold DInt64 (column m j) = wrap_int64 (col_sum m j).
Proof.
  intros Hm (_ & _ & HC) Hj. apply np_fold_int64. by eapply column_Forall.
Qed.

(** ** The contract of the checker *)

(** On int64 data whose exact column sums all fit in int64, the checker
    answers [True] exactly when the matrix is nonempty and rectangular and
    every column sums to the target. *)
Lemma check_column_sums_exact_int64 (m : matrix) (t : Z) :
  Forall (λ z, in_int64 z = true) (concat m) →
  (∀ j, in_int64 (col_sum m j) = true) →
  val (check_column_sums m t) = true ↔ columns_sum_to m t.
Proof.
  intros Hm Hsum. rewrite check_column_sums_true_iff;
    rewrite (proj2 (discover_dtype_int64 _) Hm); [|done].
  apply matrix_columns_iff. intros C j HC Hj.
  rewrite (np_fold_column_int64 m C j), wrap_int64_small by done. apply Z.eqb_eq.
Qed.

(** C5: on int64 data and an int64 target, the checker answers [True]
    exactly when the matrix is nonempty and rectangular and every column
    sum is congruent to the target modulo 2^64: NumPy's int64 sums wrap
    around. *)
Theorem check_column_sums_int64_modular (m : matrix) (t : Z) :
  Forall (λ z, in_int64 z = true) (concat m) → in_int64 t = true →
  val (check_column_sums m t) = true ↔
  ∃ C, matrix_shape m C ∧ ∀ j, (j < C)%nat → (col_sum m j - t) mod 2^64 = 0.
Proof.
  intros Hm Ht. rewrite check_column_sums_true_iff;
    rewrite (proj2 (discover_dtype_int64 _) Hm); [|done].
  apply matrix_columns_iff. intros C j HC Hj.
  rewrite (np_fold_column_int64 m C j) by done. simpl.
  rewrite Z.eqb_eq. by apply wrap_int64_eq_iff.
Qed.

(** C31: when some value fits neither int64 nor uint64, NumPy uses the
    object dtype and the check is exact. *)
Theorem check_column_sums_exact_object (m : matrix) (t : Z) :
  Exists (λ z, dtype_of_int z = DObject) (concat m) →
  val (check_column_sums m t) = true ↔ columns_sum_to m t.
Proof.
  intros Hm. rewrite check_column_sums_true_iff;
    rewrite (proj2 (discover_dtype_object _) Hm); [|done].
  apply matrix_columns_iff. intros C j HC Hj.
  rewrite np_fold_object. apply Z.eqb_eq.
Qed.

(** C32: the checker answers [False], printing nothing, for a matrix with no
    rows or whose first row is empty. *)
Theorem check_column_sums_degenerate (rs : matrix) (t : Z) :
  check_column_sums [] t = ([], false) ∧ check_column_sums ([] :: rs) t = ([], false).
Proof. done. Qed.

(** C33: a ragged matrix with a nonempty first row makes [np.array] raise;
    the checker prints the error and answers [False]. *)
Theorem check_column_sums_ragged (x : Z) (r : list Z) (rs : matrix) (t : Z) :
  rectangular ((x :: r) :: rs) = false →
  check_column_sums ((x :: r) :: rs) t = ([EvColumnSumError], false).
Proof. intros H. unfold check_column_sums. by rewrite H. Qed.

(** A matrix of int64 values whose single column sums to 2^64 + 100. *)
Definition overflow_matrix : matrix := [[2^62]; [2^62]; [2^62]; [2^62]; [100]].

(** C3: NumPy's int64 wrap-around makes the checker accept a matrix whose
    column sum is 2^64 + 100, not 100. *)
Theorem check_column_sums_overflow_accepts :
  val (check_column_sums overflow_matrix 100) = true ∧
  ¬ columns_sum_to overflow_matrix 100.
Proof.
  split; [by vm_compute|].
  intros (C & (_ & _ & HC) & Hj). apply Forall_inv in HC. simpl in HC. subst C.
  specialize (Hj 0%nat ltac:(lia)). vm_compute in Hj. discriminate.
Qed.

(** A column mixing a value above the int64 range with negative values:
    NumPy falls back to float64.  The exact sum is 101. *)
Definition rounding_matrix : matrix := [[2^63]; [- 2^63 + 1]; [100]].

(** C4: in float64, [- 2^63 + 1] rounds to [- 2^63], so the checker
    accepts a column whose exact sum is 101, not 100. *)
Theorem check_column_sums_float_rounding_accepts :
  discover_dtype (concat rounding_matrix) = DFloat64 ∧
  val (check_column_sums rounding_matrix 100) = true ∧
  ¬ columns_sum_to rounding_matrix 100.
Proof.
  split; [by vm_compute|]. split; [by vm_compute|].
  intros (C & (_ & _ & HC) & Hj). apply Forall_inv in HC. simpl in HC. subst C.
  specialize (Hj 0%nat ltac:(lia)). vm_compute in Hj. discriminate.
Qed.

(** ** Witnesses *)

Lemma check_column_sums_int64_modular_witness :
  Forall (λ z, in_int64 z = true) (concat overflow_matrix) ∧ in_int64 100 = true ∧
  (val (check_column_sums overflow_matrix 100) = true ↔
   ∃ C, matrix_shape overflow_matrix C ∧
        ∀ j, (j < C)%nat → (col_sum overflow_matrix j - 100) mod 2^64 = 0).
Proof.
  assert (H1 : Forall (λ z, in_int64 z = true) (concat overflow_matrix))
    by repeat constructor.
  assert (H2 : in_int64 100 = true) by reflexivity.
  split; [exact H1|]. split; [exact H2|].
  apply (check_column_sums_int64_modular _ _ H1 H2).
Defined.

Lemma check_column_sums_exact_object_witness :
  Exists (λ z, dtype_of_int z = DObject) (concat [[2^64]; [-2^64 + 100]]) ∧
  (val (check_column_sums [[2^64]; [-2^64 + 100]] 100) = true ↔
   columns_sum_to [[2^64]; [-2^64 + 100]] 100).
Proof.
  assert (H : Exists (λ z, dtype_of_int z = DObject) (concat [[2^64]; [-2^64 + 100]]))
    by (apply Exists_cons; left; reflexivity).
  split; [exact H|]. apply (check_column_sums_exact_object _ _ H).
Defined.

Lemma check_column_sums_ragged_witness :
  rectangular [[1; 2; 3]; [1; 2]] = false ∧
  check_column_sums [[1; 2; 3]; [1; 2]] 100 = ([EvColumnSumError], false).
Proof.
  assert (H : rectangular [[1; 2; 3]; [1; 2]] = false) by reflexivity.
  split; [exact H|]. apply (check_column_sums_ragged 1 [2; 3] [[1; 2]] 100 H).
Defined.
