(* ===== verification/Product.v ===== *)
(** * [itertools.product]: the enumeration of shift assignments

    [src/main.py] line 100 enumerates [product(range(num_cols),
    repeat=num_rows)].  The library is modelled in two forms:
    - [product] is the pure-Python equivalent given in the itertools
      documentation: starting from [[[]]], each pool extends every prefix
      by every element of the pool, prefixes outermost;
    - [product_odometer] is CPython's [product_next]: an index per pool,
      advanced right to left with carry, stopping when the leftmost index
      rolls over.  [odo_run] carries fuel, and [odo_run_enough] shows that
      the number of tuples is exactly enough.
    The theorems prove the two forms equal.  They also describe the
    enumeration: tuple [k] is the mixed-radix digits of [k] ([to_digits]),
    the tuples are in strictly increasing lexicographic order, and there
    are exactly [C^R] of them, each once. *)

From S2P Require Import Prelude Python.

(** ** The documented equivalent *)

(** [result = [x+[y] for x in result for y in pool]] *)
Definition product_step {A} (result : list (list A)) (pool : list A) : list (list A) :=
  result ≫= λ x, (λ y, x ++ [y]) <$> pool.

(** [product] over a list of pools: [result = [[]]], then one step per pool. *)
Definition product {A} (pools : list (list A)) : list (list A) :=
  foldl product_step [[]] pools.

(** [product(pool, repeat=n)]: the pool repeated [n] times. *)
Definition product_repeat {A} (pool : list A) (repeat : nat) : list (list A) :=
  product (replicate repeat pool).

(** ** CPython's odometer *)

(** One call of [product_next] after the first: the indices are advanced
    right to left.  An index that reaches its pool's size rolls over to 0
    and the carry moves one pool left.  The boolean is the carry out of the
    leftmost pool, which ends the iteration. *)
Fixpoint odo_advance (sizes indices : list nat) : bool * list nat :=
  match sizes, indices with
  | s :: ss, i :: ix =>
      let '(carry, ix') := odo_advance ss ix in
      if carry then
        if Nat.eqb (S i) s then (true, 0 :: ix') else (false, S i :: ix')
      else (false, i :: ix')
  | _, _ => (true, [])
  end.

(** The tuple for the current indices: [pools[k][indices[k]]] for each [k]. *)
Definition odo_tuple {A} (pools : list (list A)) (indices : list nat) : list A :=
  omap (λ '(pool, i), pool !! i) (zip pools indices).

(** The iteration from [indices]: yield the tuple, advance, stop on carry.
    [fuel] bounds the number of tuples. *)
Fixpoint odo_run {A} (fuel : nat) (pools : list (list A)) (indices : list nat) : list (list A) :=
  match fuel with
  | 0 => []
  | S fuel =>
      odo_tuple pools indices ::
        (let '(carry, next) := odo_advance (length <$> pools) indices in
         if carry then [] else odo_run fuel pools next)
  end.

(** The number of tuples of [pools]: the product of the sizes. *)
Definition num_tuples (sizes : list nat) : nat := foldr Nat.mul 1 sizes.

(** [product] over a list of pools as CPython runs it.  An empty pool stops it at once;
    otherwise the iteration starts from all-zero indices. *)
Definition product_odometer {A} (pools : list (list A)) : list (list A) :=
  if existsb (λ pool, Nat.eqb (length pool) 0) pools then []
  else odo_run (num_tuples (length <$> pools)) pools (replicate (length pools) 0).

(** ** Mixed-radix digits *)

(** The digits of [k] in the mixed radix [sizes], most significant first. *)
Fixpoint to_digits (sizes : list nat) (k : nat) : list nat :=
  match sizes with
  | [] => []
  | s :: ss => k / num_tuples ss :: to_digits ss (k mod num_tuples ss)
  end.

(** ** The documented form as a recursion on the first pool *)

Section Reference.
Context {A : Type}.
Implicit Types (pool : list A) (pools : list (list A)).

Lemma foldl_product_step (R : list (list A)) pools :
  foldl product_step R pools = R ≫= λ x, (λ t, x ++ t) <$> product pools.
Proof.
  revert R. induction pools as [|q pools IH]; intros R; simpl.
  - rewrite <-(list_bind_ret_r R) at 1.
    apply list_bind_ext; [|done]. intros x. simpl. by rewrite app_nil_r.
  - unfold product. simpl. rewrite !IH. unfold product_step.
    rewrite app_nil_r, list_bind_assoc.
    apply list_bind_ext; [|done]. intros x.
    rewrite list_fmap_bind, list_fmap_bind_r, list_fmap_bind.
    apply list_bind_ext; [|done]. intros y. simpl.
    rewrite <-list_fmap_compose. apply list_fmap_ext. intros i t _. simpl.
    by rewrite <-app_assoc.
Qed.

(** [product (p :: ps)] takes each element of [p] as the first
    component, in order, and each tuple of [ps] after it. *)
Lemma product_cons pool pools :
  product (pool :: pools) = pool ≫= λ y, (y ::.) <$> product pools.
Proof.
  unfold product at 1. simpl. rewrite foldl_product_step.
  unfold product_step. simpl. rewrite app_nil_r, list_fmap_bind. done.
Qed.

Lemma length_product pools :
  length (product pools) = num_tuples (length <$> pools).
Proof.
  induction pools as [|p pools IH]; [done|].
  rewrite product_cons, (length_bind_uniform _ _ (length (product pools))).
  - rewrite IH. done.
  - intros y. by rewrite length_fmap.
Qed.
End Reference.

(** ** Mixed-radix digits *)

Lemma num_tuples_cons (s : nat) (ss : list nat) : num_tuples (s :: ss) = s * num_tuples ss.
Proof. done. Qed.

Lemma num_tuples_pos (sizes : list nat) :
  Forall (λ s, 0 < s) sizes → 0 < num_tuples sizes.
Proof. induction 1; simpl; lia. Qed.

(** Splitting a number below [s * P] into its leading digit and the rest. *)
Lemma to_digits_cons (s : nat) (ss : list nat) (q r : nat) :
  r < num_tuples ss →
  to_digits (s :: ss) (q * num_tuples ss + r) = q :: to_digits ss r.
Proof.
  intros Hr. simpl. rewrite Nat.div_add_l, Nat.div_small by lia.
  rewrite Nat.add_0_r, (Nat.add_comm _ r), Nat.Div0.mod_add, Nat.mod_small by lia.
  done.
Qed.

Lemma digits_split (s : nat) (ss : list nat) (k : nat) :
  0 < num_tuples ss → k < num_tuples (s :: ss) →
  ∃ q r, k = q * num_tuples ss + r ∧ q < s ∧ r < num_tuples ss.
Proof.
  intros HP Hk. simpl in Hk. exists (k / num_tuples ss), (k mod num_tuples ss).
  split; [|split].
  - rewrite Nat.mul_comm. apply Nat.div_mod_eq.
  - apply Nat.Div0.div_lt_upper_bound. lia.
  - apply Nat.mod_upper_bound. lia.
Qed.

Lemma to_digits_zero (sizes : list nat) : to_digits sizes 0 = replicate (length sizes) 0.
Proof. induction sizes as [|s ss IH]; [done|]. simpl. by rewrite Nat.Div0.div_0_l, Nat.Div0.mod_0_l, IH. Qed.

Lemma length_to_digits (sizes : list nat) (k : nat) : length (to_digits sizes k) = length sizes.
Proof. revert k. induction sizes as [|s ss IH]; intros k; simpl; [done|]. by rewrite IH. Qed.

(** ** The documented form, tuple by tuple *)

Section Lookup.
Context {A : Type}.
Implicit Types (pool : list A) (pools : list (list A)).

(** Tuple [k] of [product pools] picks, from each pool, the element at
    the corresponding digit of [k]. *)
Lemma lookup_product pools (k : nat) :
  k < num_tuples (length <$> pools) →
  product pools !! k = Some (odo_tuple pools (to_digits (length <$> pools) k)).
Proof.
  revert k. induction pools as [|p ps IH]; intros k Hk.
  { simpl in Hk. assert (k = 0) as -> by lia. done. }
  rewrite fmap_cons in *. set (P := num_tuples (length <$> ps)) in *.
  assert (HP : 0 < P) by (simpl in Hk; unfold P in *; lia).
  destruct (digits_split (length p) (length <$> ps) k HP Hk) as (q & r & -> & Hq & Hr).
  rewrite to_digits_cons by done.
  rewrite product_cons, (lookup_bind_uniform _ _ P) by (done || (intros; by rewrite length_fmap, length_product)).
  rewrite Nat.div_add_l, Nat.div_small, Nat.add_0_r by lia.
  rewrite (Nat.add_comm _ r), Nat.Div0.mod_add, Nat.mod_small by lia.
  destruct (lookup_lt_is_Some_2 p q) as [y Hy]; [done|].
  rewrite Hy. simpl. rewrite list_lookup_fmap, IH by done. simpl.
  unfold odo_tuple. simpl. by rewrite Hy.
Qed.

(** The documented form lists the tuples of the digits of [0 .. N-1]. *)
Lemma product_as_digits pools :
  product pools =
    (λ j, odo_tuple pools (to_digits (length <$> pools) j))
      <$> seq 0 (num_tuples (length <$> pools)).
Proof.
  apply list_eq_lookup_lt.
  { by rewrite length_product, length_fmap, length_seq. }
  rewrite length_product. intros j Hj.
  by rewrite lookup_product, list_lookup_fmap, lookup_seq_lt.
Qed.
End Lookup.

(** ** The odometer follows the digits *)

(** Advancing the indices of tuple [k] gives the indices of tuple [k + 1],
    and the carry out is set exactly at the last tuple. *)
Lemma odo_advance_digits (sizes : list nat) (k : nat) :
  Forall (λ s, 0 < s) sizes → k < num_tuples sizes →
  odo_advance sizes (to_digits sizes k) =
    if decide (S k < num_tuples sizes) then (false, to_digits sizes (S k))
    else (true, replicate (length sizes) 0).
Proof.
  intros Hpos. revert k. induction Hpos as [|s ss Hs Hss IH]; intros k Hk.
  { simpl in Hk. assert (k = 0) as -> by lia. done. }
  pose proof (num_tuples_pos ss Hss) as HP.
  destruct (digits_split s ss k HP Hk) as (q & r & -> & Hq & Hr).
  rewrite to_digits_cons by done. cbn [odo_advance]. rewrite (IH r Hr).
  change (num_tuples (s :: ss)) with (s * num_tuples ss).
  destruct (decide (S r < num_tuples ss)) as [Hr'|Hr'].
  - rewrite decide_True by nia.
    replace (S (q * num_tuples ss + r)) with (q * num_tuples ss + S r) by lia.
    by rewrite to_digits_cons.
  - assert (S r = num_tuples ss) by lia.
    destruct (Nat.eqb_spec (S q) s) as [Hq'|Hq'].
    + rewrite decide_False by nia. done.
    + rewrite decide_True by nia.
      replace (S (q * num_tuples ss + r)) with (S q * num_tuples ss + 0) by lia.
      rewrite to_digits_cons, to_digits_zero by lia. done.
Qed.

Section Odometer.
Context {A : Type}.
Implicit Types (pools : list (list A)).

(** From the indices of tuple [k], the odometer yields tuples [k .. N-1]
    and stops by its own carry, given at least [N - k] units of fuel. *)
Lemma odo_run_digits pools (fuel k : nat) :
  Forall (λ s, 0 < s) (length <$> pools) →
  k < num_tuples (length <$> pools) →
  num_tuples (length <$> pools) - k ≤ fuel →
  odo_run fuel pools (to_digits (length <$> pools) k) =
    (λ j, odo_tuple pools (to_digits (length <$> pools) j))
      <$> seq k (num_tuples (length <$> pools) - k).
Proof.
  intros Hpos. revert k. induction fuel as [|fuel IH]; intros k Hk Hfuel; [lia|].
  simpl. rewrite odo_advance_digits by done.
  replace (num_tuples (length <$> pools) - k)
    with (S (num_tuples (length <$> pools) - S k)) by lia.
  simpl. f_equal.
  destruct (decide (S k < num_tuples (length <$> pools))) as [Hk'|Hk'].
  - apply IH; lia.
  - by replace (num_tuples (length <$> pools) - S k) with 0 by lia.
Qed.

Lemma existsb_empty_pool pools :
  existsb (λ pool, Nat.eqb (length pool) 0) pools = false ↔
  Forall (λ s, 0 < s) (length <$> pools).
Proof.
  induction pools as [|p ps IH]; [split; [constructor|done]|].
  simpl. rewrite orb_false_iff, IH, Nat.eqb_neq. split.
  - intros [? ?]. constructor; [lia|done].
  - intros [? ?]%Forall_cons. split; [lia|done].
Qed.

Lemma num_tuples_empty_pool pools :
  existsb (λ pool, Nat.eqb (length pool) 0) pools = true →
  num_tuples (length <$> pools) = 0.
Proof.
  induction pools as [|p ps IH]; [done|]. rewrite fmap_cons, num_tuples_cons. simpl.
  rewrite orb_true_iff, Nat.eqb_eq. intros [->|H]; [done|]. rewrite IH by done. lia.
Qed.
End Odometer.

(** ** Digits: bounds, surjectivity, order *)

Lemma to_digits_bound (sizes : list nat) (k : nat) :
  Forall (λ s, 0 < s) sizes → k < num_tuples sizes →
  Forall2 (λ i s, i < s) (to_digits sizes k) sizes.
Proof.
  intros Hpos. revert k. induction Hpos as [|s ss Hs Hss IH]; intros k Hk; [constructor|].
  destruct (digits_split s ss k (num_tuples_pos ss Hss) Hk) as (q & r & -> & Hq & Hr).
  rewrite to_digits_cons by done. constructor; [done|]. by apply IH.
Qed.

(** Every index tuple within the radix is the digits of some [k < N]. *)
Lemma to_digits_surj (sizes ix : list nat) :
  Forall2 (λ i s, i < s) ix sizes →
  ∃ k, k < num_tuples sizes ∧ to_digits sizes k = ix.
Proof.
  induction 1 as [|i s ix ss Hi Hix IH]; [exists 0; split; [simpl; lia|done]|].
  destruct IH as (k & Hk & <-).
  exists (i * num_tuples ss + k). rewrite num_tuples_cons, to_digits_cons by done.
  split; [nia|done].
Qed.

(** Digits of a smaller number are lexicographically smaller. *)
Lemma to_digits_lexico (sizes : list nat) (j k : nat) :
  Forall (λ s, 0 < s) sizes → j < k → k < num_tuples sizes →
  lexico (to_digits sizes j) (to_digits sizes k).
Proof.
  intros Hpos. revert j k. induction Hpos as [|s ss Hs Hss IH]; intros j k Hjk Hk.
  { simpl in Hk. lia. }
  pose proof (num_tuples_pos ss Hss) as HP.
  destruct (digits_split s ss k HP Hk) as (qk & rk & -> & Hqk & Hrk).
  destruct (digits_split s ss j HP ltac:(lia)) as (qj & rj & -> & Hqj & Hrj).
  rewrite !to_digits_cons by done.
  destruct (decide (qj < qk)) as [Hq|Hq]; [by left|].
  assert (qj = qk) as -> by nia. right. split; [done|]. apply IH; lia.
Qed.

(** The enumeration of [product(range(C), repeat=R)]. *)
Section Repeat.
Variables (C R : nat).

Lemma num_tuples_replicate : num_tuples (replicate R C) = C ^ R.
Proof. induction R as [|R' IH]; [done|]. simpl. unfold num_tuples in *. simpl. lia. Qed.

Lemma num_tuples_repeat : num_tuples (length <$> replicate R (py_range (Z.of_nat C))) = C ^ R.
Proof. rewrite fmap_replicate, length_py_range, Nat2Z.id. apply num_tuples_replicate. Qed.

Lemma odo_tuple_range (ix : list nat) :
  Forall (λ i, i < C) ix →
  odo_tuple (replicate (length ix) (py_range (Z.of_nat C))) ix = Z.of_nat <$> ix.
Proof.
  induction 1 as [|i ix Hi Hix IH]; [done|]. unfold odo_tuple in *. simpl.
  unfold py_range at 1. rewrite list_lookup_fmap, Nat2Z.id, lookup_seq_lt by done.
  simpl. f_equal. exact IH.
Qed.

Lemma product_repeat_range_lookup (k : nat) :
  k < C ^ R →
  product_repeat (py_range (Z.of_nat C)) R !! k =
    Some (Z.of_nat <$> to_digits (replicate R C) k).
Proof.
  intros Hk. assert (Hpos : Forall (λ s, 0 < s) (replicate R C)).
  { destruct C as [|C']; [|apply Forall_replicate; lia].
    destruct R as [|R']; [constructor|]. rewrite Nat.pow_0_l in Hk by lia. lia. }
  unfold product_repeat. rewrite lookup_product by (by rewrite num_tuples_repeat).
  rewrite fmap_replicate, length_py_range, Nat2Z.id.
  replace R with (length (to_digits (replicate R C) k)) at 1
    by (by rewrite length_to_digits, length_replicate).
  rewrite odo_tuple_range; [done|].
  assert (Hb : Forall2 (λ i s, i < s) (to_digits (replicate R C) k) (replicate R C)).
  { apply to_digits_bound; [done|].
    by rewrite num_tuples_replicate. }
  by apply Forall2_replicate_r_inv in Hb.
Qed.

Lemma length_product_repeat_range :
  length (product_repeat (py_range (Z.of_nat C)) R) = C ^ R.
Proof. unfold product_repeat. by rewrite length_product, num_tuples_repeat. Qed.
End Repeat.

(** ** The two forms agree *)

Section Agreement.
Context {A : Type}.
Implicit Types (pools : list (list A)).

Lemma odo_run_from_zero pools (fuel : nat) :
  Forall (λ s, 0 < s) (length <$> pools) → num_tuples (length <$> pools) ≤ fuel →
  odo_run fuel pools (replicate (length pools) 0) = product pools.
Proof.
  intros Hpos Hfuel. pose proof (num_tuples_pos _ Hpos).
  rewrite <-(length_fmap length pools), <-to_digits_zero.
  rewrite odo_run_digits, product_as_digits, Nat.sub_0_r by (done || lia). done.
Qed.

(** C15: CPython's odometer yields exactly the tuples of the documented
    [itertools.product] equivalent, in the same order, including when a
    pool is empty. *)
Theorem product_odometer_correct pools : product_odometer pools = product pools.
Proof.
  unfold product_odometer. destruct (existsb _ pools) eqn:He.
  - symmetry. apply nil_length_inv. by rewrite length_product, num_tuples_empty_pool.
  - by apply odo_run_from_zero; [apply existsb_empty_pool|].
Qed.

(** C16: with nonempty pools, the odometer run with any fuel of at least
    the number of tuples yields the whole product: the iteration ends by
    its own carry, after exactly that many tuples. *)
Theorem odo_run_enough_fuel pools (fuel : nat) :
  Forall (λ pool, pool ≠ []) pools → num_tuples (length <$> pools) ≤ fuel →
  odo_run fuel pools (replicate (length pools) 0) = product pools.
Proof.
  intros Hne Hfuel. apply odo_run_from_zero; [|done].
  apply Forall_fmap. eapply Forall_impl; [exact Hne|]. intros p Hp. simpl.
  destruct p; [done|simpl; lia].
Qed.
End Agreement.

Lemma odo_run_enough_fuel_witness :
  Forall (λ pool, pool ≠ []) (replicate 2 (py_range 3)) ∧
  num_tuples (length <$> replicate 2 (py_range 3)) ≤ 9 ∧
  odo_run 9 (replicate 2 (py_range 3)) (replicate 2 0) = product (replicate 2 (py_range 3)).
Proof.
  assert (H1 : Forall (λ pool, pool ≠ []) (replicate 2 (py_range 3)))
    by (repeat constructor; discriminate).
  assert (H2 : num_tuples (length <$> replicate 2 (py_range 3)) ≤ 9) by (vm_compute; lia).
  split; [exact H1|]. split; [exact H2|].
  exact (odo_run_enough_fuel _ 9 H1 H2).
Defined.

(** ** The enumeration of [product(range(C), repeat=R)], by tuple *)

Lemma lexico_fmap_of_nat (a b : list nat) :
  lexico a b → lexico (Z.of_nat <$> a) (Z.of_nat <$> b).
Proof.
  revert b. induction a as [|x a IH]; intros [|y b]; try done.
  intros H. rewrite !fmap_cons. destruct H as [Hxy|[Heq Hab]]; simpl in *.
  - left. simpl. unfold lexico, nat_lexico, Z_lexico in *. lia.
  - right. simpl. split; [by rewrite Heq|by apply IH].
Qed.

Section RepeatEnumeration.
Variables (C R : nat).
Let L := product_repeat (py_range (Z.of_nat C)) R.

(** Every tuple has one entry per repetition, each in [range(C)]. *)
Lemma product_repeat_range_valid (k : nat) (s : list Z) :
  L !! k = Some s → length s = R ∧ Forall (λ x, 0 <= x < Z.of_nat C)%Z s.
Proof.
  intros Hs. assert (Hk : k < C ^ R).
  { rewrite <-(length_product_repeat_range C R). by eapply lookup_lt_Some. }
  unfold L in Hs. rewrite product_repeat_range_lookup in Hs by done. simplify_eq.
  rewrite length_fmap, length_to_digits, length_replicate. split; [done|].
  assert (Hpos : Forall (λ s, 0 < s) (replicate R C)).
  { destruct C as [|C']; [|apply Forall_replicate; lia].
    destruct R as [|R']; [constructor|]. rewrite Nat.pow_0_l in Hk by lia. lia. }
  pose proof (to_digits_bound (replicate R C) k Hpos) as Hb.
  rewrite num_tuples_replicate in Hb.
  apply Forall2_replicate_r_inv in Hb; [|done]. apply Forall_fmap.
  eapply Forall_impl; [exact Hb|]. simpl. lia.
Qed.

(** Every such tuple is enumerated. *)
Lemma product_repeat_range_complete (s : list Z) :
  length s = R → Forall (λ x, 0 <= x < Z.of_nat C)%Z s →
  ∃ k, k < C ^ R ∧ L !! k = Some s.
Proof.
  intros Hlen Hs.
  assert (Hix : Forall2 (λ i s, i < s) (Z.to_nat <$> s) (replicate R C)).
  { apply Forall2_replicate_r; [by rewrite length_fmap|].
    apply Forall_fmap. eapply Forall_impl; [exact Hs|]. intros x Hx. unfold flip. simpl in *. lia. }
  destruct (to_digits_surj _ _ Hix) as (k & Hk & Hdig).
  assert (Hk' : k < C ^ R) by by rewrite <-(num_tuples_replicate C R).
  exists k. split; [done|]. unfold L. rewrite product_repeat_range_lookup, Hdig by done.
  f_equal. clear -Hs. induction Hs as [|x s Hx Hs IH]; [done|]. csimpl.
  rewrite Z2Nat.id, IH by lia. done.
Qed.

(** Tuples come in strictly increasing lexicographic order. *)
Lemma product_repeat_range_lexico (j k : nat) (a b : list Z) :
  j < k → L !! j = Some a → L !! k = Some b → lexico a b.
Proof.
  intros Hjk Ha Hb. assert (Hk : k < C ^ R).
  { rewrite <-(length_product_repeat_range C R). by eapply lookup_lt_Some. }
  unfold L in Ha, Hb. rewrite product_repeat_range_lookup in Ha, Hb by lia.
  simplify_eq. apply lexico_fmap_of_nat, to_digits_lexico; [|done|].
  - destruct C as [|C']; [|apply Forall_replicate; lia].
    destruct R as [|R']; [constructor|]. rewrite Nat.pow_0_l in Hk by lia. lia.
  - by rewrite num_tuples_replicate.
Qed.
End RepeatEnumeration.
