(* ===== verification/Search.v ===== *)
(** * Shift Search Engine: the loop of [solve_matrix_problem] (lines 83-118)

    After the matrix is read, [solve_matrix_problem] guards the empty cases
    (lines 83-90).  It prints the number of combinations (line 98) and
    walks [enumerate(product(range(num_cols), repeat=num_rows))].  For each
    combination it:
    - prints progress every 5000 combinations (lines 101-102);
    - builds the shifted matrix row by row (lines 104-108);
    - checks the column sums against 100 (line 110);
    - on success prints the solution and returns (lines 111-116).
    After the loop it prints that no solution exists (line 118).

    [search_loop] is the [for] loop; [search_matrix] is lines 83-118.  The
    outcome of a run is a value of [outcome]; what it prints is the list of
    events.  The theorems show the loop implements [list_find] over the
    enumeration.  Through the enumeration order of [Product] they refine the
    search to the abstract contract [search_spec]: the result is the
    lexicographically least shift assignment that passes the check, or
    [Exhausted] when none passes.  Under a bound on the entries that rules
    out int64 overflow, the contract holds for exact column sums. *)

From S2P Require Import Prelude Python Console ShiftRow ColumnSums Product.

Local Open Scope Z_scope.
#[local] Arguments Nat.modulo : simpl never.
#[local] Arguments Nat.div : simpl never.

(** What a run of the solver ends with. *)
Inductive outcome : Type :=
  | Found (shifts : list Z) (result : matrix)
  | Exhausted
  | CannotSolve.

#[export] Instance outcome_eq_dec : EqDecision outcome.
Proof. solve_decision. Defined.

(** Lines 93-100: [product(range(num_cols), repeat=num_rows)]. *)
Definition shift_combinations (num_rows num_cols : nat) : list (list Z) :=
  product_repeat (py_range (Z.of_nat num_cols)) num_rows.

(** Lines 104-108: [shifted_matrix_list], row [row_idx] of the original
    shifted by [shift_combination[row_idx]].  Every index is below the
    lengths of both lists: the combination has [num_rows] entries. *)
Definition shifted_matrix (original_matrix : matrix) (num_rows : nat)
    (shift_combination : list Z) : matrix :=
  (λ row_idx, shift_row (original_matrix !!! row_idx) (shift_combination !!! row_idx))
    <$> seq 0 num_rows.

(** Lines 111-115: the report of a solution. *)
Definition solution_events (shift_combination : list Z) (shifted : matrix) : list event :=
  [EvSolutionFound; EvShiftsApplied shift_combination; EvResultingMatrix]
    ++ (EvRow <$> shifted).

(** Lines 100-116: the loop, from enumeration index [i] on. *)
Fixpoint search_loop (original_matrix : matrix) (num_rows : nat)
    (total_combinations : Z) (i : nat) (combos : list (list Z)) : IO outcome :=
  match combos with
  | [] => mret Exhausted
  | shift_combination :: rest =>
      (if Nat.eqb ((i + 1) mod 5000) 0
       then tell [EvProgress (i + 1) total_combinations] else mret tt : IO unit);;
      let shifted := shifted_matrix original_matrix num_rows shift_combination in
      check_column_sums shifted 100 ≫= λ ok : bool,
      if ok then (tell (solution_events shift_combination shifted);;
                  mret (Found shift_combination shifted))
      else search_loop original_matrix num_rows total_combinations (S i) rest
  end.

(** Lines 83-118, for a matrix that [read_matrix] returned. *)
Definition search_matrix (original_matrix : matrix) : IO outcome :=
  let num_rows := length original_matrix in
  if Nat.eqb num_rows 0 then (tell [EvMatrixEmpty];; mret CannotSolve) else
  let num_cols := length (original_matrix !!! 0%nat) in
  if Nat.eqb num_cols 0 then (tell [EvRowsEmpty];; mret CannotSolve) else
  let total_combinations := Z.of_nat num_cols ^ Z.of_nat num_rows in
  tell [EvTrying total_combinations];;
  r ← search_loop original_matrix num_rows total_combinations 0
        (shift_combinations num_rows num_cols);
  match r with
  | Exhausted => tell [EvNoSolution];; mret Exhausted
  | _ => mret r
  end.

(** ** The shifted matrix *)

Lemma length_shifted_matrix (m : matrix) (R : nat) (s : list Z) :
  length (shifted_matrix m R s) = R.
Proof. unfold shifted_matrix. by rewrite length_fmap, length_seq. Qed.

Lemma lookup_shifted_matrix (m : matrix) (R i : nat) (s : list Z) :
  (i < R)%nat → shifted_matrix m R s !! i = Some (shift_row (m !!! i) (s !!! i)).
Proof. intros Hi. unfold shifted_matrix. by rewrite list_lookup_fmap, lookup_seq_lt. Qed.

(** Shifting every row keeps the matrix rectangular with the same shape. *)
Lemma shifted_matrix_shape (m : matrix) (C : nat) (s : list Z) :
  matrix_shape m C → matrix_shape (shifted_matrix m (length m) s) C.
Proof.
  intros (HC & Hm & Hrows). split_and!; [done| |].
  - intros Hnil. apply (f_equal length) in Hnil. rewrite length_shifted_matrix in Hnil.
    destruct m; [done|discriminate].
  - apply Forall_lookup. intros i r Hr.
    assert (Hi : (i < length m)%nat).
    { apply lookup_lt_Some in Hr. by rewrite length_shifted_matrix in Hr. }
    rewrite lookup_shifted_matrix in Hr by done. simplify_eq.
    rewrite length_shift_row. destruct (lookup_lt_is_Some_2 m i Hi) as [r Hr].
    rewrite (list_lookup_total_correct _ _ _ Hr). rewrite Forall_lookup in Hrows. eauto.
Qed.

Lemma rectangular_of_shape (m : matrix) (C : nat) : matrix_shape m C → rectangular m = true.
Proof.
  intros (_ & Hm & Hrows). destruct m as [|r rs]; [done|]. apply rectangular_Forall.
  pose proof (Forall_inv Hrows) as Hr. simpl in Hr. by rewrite Hr.
Qed.

(** ** The loop is a search for the first passing combination *)

(** Combination [s] passes when the checker accepts the shifted matrix. *)
Definition passes (m : matrix) (R : nat) (s : list Z) : bool :=
  val (check_column_sums (shifted_matrix m R s) 100).

(** The progress lines printed while the combinations [i+1 .. i+n] are
    checked. *)
Definition progress_events (i n : nat) (T : Z) : list event :=
  (λ k, EvProgress k T) <$> filter (λ k, k mod 5000 = 0)%nat (seq (S i) n).

Lemma progress_events_S (i n : nat) (T : Z) :
  progress_events i (S n) T =
    (if Nat.eqb ((i + 1) mod 5000) 0 then [EvProgress (i + 1) T] else [])
      ++ progress_events (S i) n T.
Proof.
  unfold progress_events. cbn [seq]. rewrite filter_cons.
  replace (i + 1)%nat with (S i) by lia.
  destruct (Nat.eqb_spec (S i mod 5000) 0) as [H|H].
  - rewrite decide_True by done. by rewrite fmap_cons.
  - by rewrite decide_False by done.
Qed.

Lemma search_loop_val (m : matrix) (R : nat) (T : Z) (i : nat) (cs : list (list Z)) :
  val (search_loop m R T i cs) =
    match list_find (λ c, passes m R c = true) cs with
    | Some (_, c) => Found c (shifted_matrix m R c)
    | None => Exhausted
    end.
Proof.
  revert i. induction cs as [|c cs IH]; intros i; [done|].
  cbn [search_loop list_find]. wsimp.
  destruct (decide (passes m R c = true)) as [Hc|Hc]; unfold passes in Hc.
  - rewrite Hc. by wsimp.
  - apply not_true_is_false in Hc. rewrite Hc, IH.
    by destruct (list_find _ cs) as [[]|].
Qed.

(** What the loop prints: one progress line per 5000 combinations checked,
    and the report of the solution when one is found.  The checker prints
    nothing on the rectangular shifted matrices. *)
Lemma search_loop_out (m : matrix) (R : nat) (T : Z) (i : nat) (cs : list (list Z)) :
  Forall (λ c, rectangular (shifted_matrix m R c) = true) cs →
  out (search_loop m R T i cs) =
    match list_find (λ c, passes m R c = true) cs with
    | Some (k, c) => progress_events i (S k) T ++ solution_events c (shifted_matrix m R c)
    | None => progress_events i (length cs) T
    end.
Proof.
  intros Hrect. revert i. induction Hrect as [|c cs Hc Hrect IH]; intros i; [done|].
  cbn [search_loop list_find length]. wsimp. rewrite check_column_sums_silent by done.
  destruct (decide (passes m R c = true)) as [Hp|Hp]; unfold passes in Hp.
  - rewrite Hp. wsimp. simpl. rewrite progress_events_S.
    replace (progress_events (S i) 0 T) with (@nil event) by done.
    unfold solution_events.
    destruct (Nat.eqb ((i + 1) mod 5000) 0); simpl; by rewrite ?app_nil_r.
  - apply not_true_is_false in Hp. rewrite Hp, IH.
    destruct (list_find _ cs) as [[k c']|]; simpl; rewrite (progress_events_S i);
      destruct (Nat.eqb ((i + 1) mod 5000) 0); simpl; by rewrite ?app_assoc.
Qed.

(** The number of combinations that line 97 computes. *)
Definition total_combinations (m : matrix) (C : nat) : Z := Z.of_nat C ^ Z.of_nat (length m).

(** On a nonempty matrix whose first row is nonempty, [search_matrix]
    announces the count, runs the loop over the combinations, and reports
    exhaustion after it. *)
Lemma search_matrix_unfold (m : matrix) (C : nat) :
  matrix_shape m C →
  search_matrix m =
    let r := search_loop m (length m) (total_combinations m C) 0
               (shift_combinations (length m) C) in
    ([EvTrying (total_combinations m C)] ++ out r ++
       (if decide (val r = Exhausted) then [EvNoSolution] else []),
     val r).
Proof.
  intros (HC & Hm & Hrows). destruct m as [|row rows]; [done|].
  pose proof (Forall_inv Hrows) as Hrow. simpl in Hrow. destruct C as [|C']; [lia|].
  unfold search_matrix, total_combinations.
  cbn [length lookup_total list_lookup_total Nat.eqb]. rewrite Hrow. cbn [Nat.eqb].
  destruct (search_loop _ _ _ _ _) as [o v]. destruct v; reflexivity.
Qed.

(** ** The enumeration, as the search uses it *)

(** A shift assignment for [R] rows of [C] columns: [R] amounts in
    [0, C). *)
Definition valid_assignment (R C : nat) (s : list Z) : Prop :=
  length s = R ∧ Forall (λ x, 0 <= x < Z.of_nat C) s.

Lemma shift_combinations_valid (R C k : nat) (s : list Z) :
  shift_combinations R C !! k = Some s → valid_assignment R C s.
Proof. apply product_repeat_range_valid. Qed.

Lemma shift_combinations_complete (R C : nat) (s : list Z) :
  valid_assignment R C s → ∃ k, shift_combinations R C !! k = Some s.
Proof.
  intros [Hlen Hs]. destruct (product_repeat_range_complete C R s Hlen Hs) as (k & _ & Hk).
  by exists k.
Qed.

(** ** The abstract contract of the search *)

(** The search for a notion [good] of solution on [m] with [C] columns
    returns the lexicographically least good assignment with the shifted
    matrix, or [Exhausted] when no assignment is good. *)
Inductive search_spec (m : matrix) (C : nat) (good : list Z → Prop) : outcome → Prop :=
  | spec_found (s : list Z) :
      valid_assignment (length m) C s → good s →
      (∀ s', valid_assignment (length m) C s' → good s' → s' = s ∨ lexico s s') →
      search_spec m C good (Found s (shifted_matrix m (length m) s))
  | spec_exhausted :
      (∀ s, valid_assignment (length m) C s → ¬ good s) →
      search_spec m C good Exhausted.

(** The contract only depends on which valid assignments are good. *)
Lemma search_spec_iff (m : matrix) (C : nat) (good good' : list Z → Prop) (o : outcome) :
  (∀ s, valid_assignment (length m) C s → good s ↔ good' s) →
  search_spec m C good o → search_spec m C good' o.
Proof.
  intros Hiff [s Hs Hg Hmin|Hnone].
  - constructor; [done|by apply Hiff|]. intros s' Hs' Hg'. apply Hmin; [done|by apply Hiff].
  - constructor. intros s Hs Hg. by apply (Hnone s Hs), Hiff.
Qed.

(** The loop over the enumeration meets the contract, for the checker's
    own notion of a good assignment. *)
Lemma search_loop_spec (m : matrix) (C : nat) (T : Z) :
  search_spec m C (λ s, passes m (length m) s = true)
    (val (search_loop m (length m) T 0 (shift_combinations (length m) C))).
Proof.
  rewrite search_loop_val.
  destruct (list_find _ _) as [[k s]|] eqn:Hfind.
  - apply list_find_Some in Hfind as (Hk & Hp & Hbefore).
    constructor; [by eapply shift_combinations_valid|done|].
    intros s' Hs' Hp'. destruct (shift_combinations_complete _ _ _ Hs') as [k' Hk'].
    destruct (lt_eq_lt_dec k' k) as [[Hlt|Heq]|Hgt].
    + by destruct (Hbefore k' s' Hk' Hlt).
    + subst k'. left. congruence.
    + right. eapply product_repeat_range_lexico; [exact Hgt|exact Hk|exact Hk'].
  - apply list_find_None in Hfind. constructor. intros s Hs Hp.
    destruct (shift_combinations_complete _ _ _ Hs) as [k Hk].
    rewrite Forall_lookup in Hfind. by apply (Hfind k s Hk).
Qed.

(** C1: on a nonempty rectangular matrix with [C > 0] columns, the solver
    returns the lexicographically least shift assignment that passes the
    column-sum check, with the shifted matrix, or [Exhausted] when no
    assignment passes. *)
Theorem search_matrix_refines (m : matrix) (C : nat) :
  matrix_shape m C →
  search_spec m C (λ s, passes m (length m) s = true) (val (search_matrix m)).
Proof.
  intros Hshape. rewrite (search_matrix_unfold m C Hshape). apply search_loop_spec.
Qed.

(** ** Exact column sums under a bound on the entries *)

Lemma shifted_matrix_entries (P : Z → Prop) (m : matrix) (s : list Z) :
  Forall (Forall P) m → Forall (Forall P) (shifted_matrix m (length m) s).
Proof.
  intros Hm. apply Forall_lookup. intros i r Hr.
  assert (Hi : (i < length m)%nat).
  { apply lookup_lt_Some in Hr. by rewrite length_shifted_matrix in Hr. }
  rewrite lookup_shifted_matrix in Hr by done. simplify_eq.
  apply Forall_shift_row. destruct (lookup_lt_is_Some_2 m i Hi) as [r Hr].
  rewrite (list_lookup_total_correct _ _ _ Hr). rewrite Forall_lookup in Hm. eauto.
Qed.

(** When the entries are bounded by [B] and [R * B < 2^63], no column sum of
    any shifted matrix leaves the int64 range, and the checker is exact. *)
Lemma passes_exact (m : matrix) (B : Z) (s : list Z) :
  Forall (Forall (λ x, Z.abs x <= B)) m → 0 <= B → Z.of_nat (length m) * B < 2^63 →
  (0 < length m)%nat →
  passes m (length m) s = true ↔ columns_sum_to (shifted_matrix m (length m) s) 100.
Proof.
  intros Hm HB0 HB HR. unfold passes.
  pose proof (shifted_matrix_entries _ m s Hm) as Hsh.
  apply check_column_sums_exact_int64.
  - apply Forall_concat_iff. eapply Forall_impl; [exact Hsh|]. intros r Hr.
    eapply Forall_impl; [exact Hr|]. intros x Hx. simpl in Hx. unfold in_int64.
    apply andb_true_iff. rewrite Z.leb_le, Z.ltb_lt. nia.
  - intros j. pose proof (sum_Z_abs_bound (column (shifted_matrix m (length m) s) j) B) as Hb.
    rewrite length_column, length_shifted_matrix in Hb.
    unfold col_sum, in_int64. apply andb_true_iff. rewrite Z.leb_le, Z.ltb_lt.
    assert (Hcol : Forall (λ x, Z.abs x <= B) (column (shifted_matrix m (length m) s) j)).
    { apply column_Forall_entries; [simpl; lia|done]. }
    specialize (Hb Hcol). lia.
Qed.

(** C2: when the entries of [m] are bounded by [B] with [R * B < 2^63],
    the solver returns the lexicographically least shift assignment for
    which every column of the shifted matrix sums exactly to 100, or
    [Exhausted] when there is none. *)
Theorem search_matrix_exact (m : matrix) (C : nat) (B : Z) :
  matrix_shape m C →
  Forall (Forall (λ x, Z.abs x <= B)) m → Z.of_nat (length m) * B < 2^63 →
  search_spec m C (λ s, columns_sum_to (shifted_matrix m (length m) s) 100)
    (val (search_matrix m)).
Proof.
  intros Hshape Hm HB. rewrite (search_matrix_unfold m C Hshape).
  eapply search_spec_iff; [|apply search_loop_spec].
  destruct Hshape as (HC & Hne & Hrows).
  destruct m as [|r rs]; [done|]. pose proof (Forall_inv Hrows) as Hr. simpl in Hr.
  destruct r as [|x r]; [simpl in Hr; lia|].
  assert (HB0 : 0 <= B).
  { apply Forall_inv, Forall_inv in Hm. simpl in Hm. lia. }
  intros s _. apply (passes_exact _ B s Hm HB0 HB). simpl. lia.
Qed.

(** ** What the solver prints *)

Lemma shifted_rectangular_all (m : matrix) (C : nat) (cs : list (list Z)) :
  matrix_shape m C → Forall (λ c, rectangular (shifted_matrix m (length m) c) = true) cs.
Proof.
  intros Hshape. apply Forall_forall. intros c _.
  exact (rectangular_of_shape _ C (shifted_matrix_shape m C c Hshape)).
Qed.

(** C17: when no assignment passes, the solver prints the number [C^R] of
    combinations, one progress line for each multiple of 5000 up to [C^R],
    which shows that all [C^R] combinations were checked, and the
    no-solution message. *)
Theorem search_matrix_exhausted_output (m : matrix) (C : nat) :
  matrix_shape m C → val (search_matrix m) = Exhausted →
  out (search_matrix m) =
    [EvTrying (total_combinations m C)] ++
    progress_events 0 (C ^ length m) (total_combinations m C) ++ [EvNoSolution].
Proof.
  intros Hshape. rewrite (search_matrix_unfold m C Hshape). cbn zeta. simpl val. intros Hex.
  simpl out. rewrite Hex, decide_True by done. f_equal. f_equal.
  rewrite search_loop_out by (by apply (shifted_rectangular_all _ C)).
  rewrite search_loop_val in Hex.
  destruct (list_find _ _) as [[k c]|]; [done|].
  unfold shift_combinations. by rewrite length_product_repeat_range.
Qed.

(** C18: when the solver finds assignment [s] at position [k] of the
    enumeration, it prints the number of combinations, the progress lines
    for the [k + 1] combinations checked, and the report of [s] with the
    shifted matrix. *)
Theorem search_matrix_found_output (m : matrix) (C : nat) (s : list Z) (sm : matrix) :
  matrix_shape m C → val (search_matrix m) = Found s sm →
  ∃ k, shift_combinations (length m) C !! k = Some s ∧
    out (search_matrix m) =
      [EvTrying (total_combinations m C)] ++
      progress_events 0 (S k) (total_combinations m C) ++ solution_events s sm.
Proof.
  intros Hshape. rewrite (search_matrix_unfold m C Hshape). cbn zeta. simpl val. intros Hf.
  simpl out. rewrite Hf. rewrite search_loop_out by (by apply (shifted_rectangular_all _ C)).
  rewrite search_loop_val in Hf.
  destruct (list_find _ _) as [[k c]|] eqn:Hfind; [|done]. simplify_eq.
  apply list_find_Some in Hfind as (Hk & _ & _). exists k. split; [done|].
  by rewrite decide_False, app_nil_r.
Qed.

(** ** The enumeration order *)

(** C13: combination [k] of the enumeration is the [R] base-[C] digits of
    [k], most significant first: the last row's shift varies fastest. *)
Theorem shift_combinations_digits (R C k : nat) :
  (k < C ^ R)%nat →
  shift_combinations R C !! k = Some (Z.of_nat <$> to_digits (replicate R C) k).
Proof. apply product_repeat_range_lookup. Qed.

(** C12: the enumeration is strictly increasing in lexicographic order. *)
Theorem shift_combinations_lexico (R C j k : nat) (a b : list Z) :
  (j < k)%nat → shift_combinations R C !! j = Some a → shift_combinations R C !! k = Some b →
  lexico a b.
Proof. apply product_repeat_range_lexico. Qed.

(** C14: the enumeration contains exactly the shift assignments: [R]
    amounts, each in [0, C). *)
Theorem shift_combinations_members (R C : nat) (s : list Z) :
  s ∈ shift_combinations R C ↔ valid_assignment R C s.
Proof.
  rewrite list_elem_of_lookup. split.
  - intros [k Hk]. by eapply shift_combinations_valid.
  - apply shift_combinations_complete.
Qed.

(** C30: the enumeration has [C^R] combinations, none repeated. *)
Theorem shift_combinations_count (R C : nat) :
  length (shift_combinations R C) = (C ^ R)%nat ∧ NoDup (shift_combinations R C).
Proof.
  split; [apply length_product_repeat_range|].
  apply NoDup_alt. intros j k s Hj Hk.
  destruct (lt_eq_lt_dec j k) as [[Hlt|Heq]|Hgt]; [|done|].
  - pose proof (product_repeat_range_lexico C R j k s s Hlt Hj Hk) as H.
    exfalso. exact (irreflexivity lexico s H).
  - pose proof (product_repeat_range_lexico C R k j s s Hgt Hk Hj) as H.
    exfalso. exact (irreflexivity lexico s H).
Qed.

(** ** Witnesses *)

Lemma shape_10_90 : matrix_shape [[10; 90]; [10; 90]] 2.
Proof. split_and!; [lia|discriminate|repeat constructor]. Qed.

Lemma search_matrix_refines_witness :
  matrix_shape [[10; 90]; [10; 90]] 2 ∧
  search_spec [[10; 90]; [10; 90]] 2
    (λ s, passes [[10; 90]; [10; 90]] (length [[10; 90]; [10; 90]]) s = true)
    (val (search_matrix [[10; 90]; [10; 90]])).
Proof. split; [exact shape_10_90|]. exact (search_matrix_refines _ 2 shape_10_90). Defined.

Lemma search_matrix_exact_witness :
  matrix_shape [[10; 90]; [10; 90]] 2 ∧
  Forall (Forall (λ x, Z.abs x <= 90)) [[10; 90]; [10; 90]] ∧
  Z.of_nat (length [[10; 90]; [10; 90]]) * 90 < 2^63 ∧
  search_spec [[10; 90]; [10; 90]] 2
    (λ s, columns_sum_to (shifted_matrix [[10; 90]; [10; 90]] (length [[10; 90]; [10; 90]]) s) 100)
    (val (search_matrix [[10; 90]; [10; 90]])).
Proof.
  assert (H1 : Forall (Forall (λ x, Z.abs x <= 90)) [[10; 90]; [10; 90]])
    by (repeat constructor; simpl; lia).
  assert (H2 : Z.of_nat (length [[10; 90]; [10; 90]]) * 90 < 2^63) by (simpl; lia).
  split; [exact shape_10_90|]. split; [exact H1|]. split; [exact H2|].
  exact (search_matrix_exact _ 2 90 shape_10_90 H1 H2).
Defined.

Lemma search_matrix_exhausted_output_witness :
  matrix_shape [[1; 1]; [1; 1]] 2 ∧ val (search_matrix [[1; 1]; [1; 1]]) = Exhausted ∧
  out (search_matrix [[1; 1]; [1; 1]]) =
    [EvTrying (total_combinations [[1; 1]; [1; 1]] 2)] ++
    progress_events 0 (2 ^ length [[1; 1]; [1; 1]]) (total_combinations [[1; 1]; [1; 1]] 2)
    ++ [EvNoSolution].
Proof.
  assert (H1 : matrix_shape [[1; 1]; [1; 1]] 2) by (split_and!; [lia|discriminate|repeat constructor]).
  assert (H2 : val (search_matrix [[1; 1]; [1; 1]]) = Exhausted) by (vm_compute; reflexivity).
  split; [exact H1|]. split; [exact H2|].
  exact (search_matrix_exhausted_output _ 2 H1 H2).
Defined.

Lemma search_matrix_found_output_witness :
  matrix_shape [[10; 90]; [10; 90]] 2 ∧
  val (search_matrix [[10; 90]; [10; 90]]) = Found [0; 1] [[10; 90]; [90; 10]] ∧
  ∃ k, shift_combinations (length [[10; 90]; [10; 90]]) 2 !! k = Some [0; 1] ∧
    out (search_matrix [[10; 90]; [10; 90]]) =
      [EvTrying (total_combinations [[10; 90]; [10; 90]] 2)] ++
      progress_events 0 (S k) (total_combinations [[10; 90]; [10; 90]] 2) ++
      solution_events [0; 1] [[10; 90]; [90; 10]].
Proof.
  assert (H2 : val (search_matrix [[10; 90]; [10; 90]]) = Found [0; 1] [[10; 90]; [90; 10]])
    by (vm_compute; reflexivity).
  split; [exact shape_10_90|]. split; [exact H2|].
  exact (search_matrix_found_output _ 2 _ _ shape_10_90 H2).
Defined.

Lemma shift_combinations_digits_witness :
  (3 < 2 ^ 2)%nat ∧
  shift_combinations 2 2 !! 3%nat = Some (Z.of_nat <$> to_digits (replicate 2 2%nat) 3).
Proof.
  assert (H : (3 < 2 ^ 2)%nat) by (simpl; lia).
  split; [exact H|]. exact (shift_combinations_digits 2 2 3 H).
Defined.

Lemma shift_combinations_lexico_witness :
  (1 < 2)%nat ∧ shift_combinations 2 2 !! 1%nat = Some [0; 1] ∧
  shift_combinations 2 2 !! 2%nat = Some [1; 0] ∧ lexico [0; 1] [1; 0].
Proof.
  assert (H1 : (1 < 2)%nat) by lia.
  assert (H2 : shift_combinations 2 2 !! 1%nat = Some [0; 1]) by reflexivity.
  assert (H3 : shift_combinations 2 2 !! 2%nat = Some [1; 0]) by reflexivity.
  split; [exact H1|]. split; [exact H2|]. split; [exact H3|].
  exact (shift_combinations_lexico 2 2 1 2 _ _ H1 H2 H3).
Defined.
