(* ===== verification/Loader.v ===== *)
(** * Matrix Loader: [read_matrix] of [src/main.py] (lines 5-45)

    The file system is a value: [None] when [os.path.exists(filename)] is
    false, [Some contents] holding the file's text otherwise.  The loader
    runs in the writer monad [IO] of [Console] and prints its warnings and
    errors as [event]s:
    - [parse_row] is line 29: [int] of each comma-separated field of the
      stripped line.  [None] is the [ValueError] that skips the line.
    - [parse_lines] is the loop of lines 27-33.
    - [check_rows] is lines 35-45: no rows, then rows of unequal length.
    - [read_matrix] is the whole function, with the comment test of line 24.

    The theorems show four things.  A successful load is a nonempty
    rectangular matrix with nonempty rows.  The warnings are exactly the
    unparseable lines.  The comment test of line 24 changes no result.  A
    matrix written in the documented format, with or without a [//] header,
    is read back unchanged. *)

From Stdlib Require Import Ascii String.
From stdpp Require Import strings.
From S2P Require Import Prelude PyStr Console ColumnSums.

Local Open Scope Z_scope.
#[local] Arguments String.append : simpl nomatch.

(** Line 29: [[int(val) for val in line.strip().split(',')]].  The first
    [int] that raises makes the whole line fail. *)
Definition parse_row (line : string) : option (list Z) :=
  mapM py_int (py_split (py_strip line) ",").

(** Lines 27-33: each line is parsed and appended to [matrix], or reported
    with [Warning: Could not parse line: {line.strip()}. Skipping.]. *)
Fixpoint parse_lines (lines : list string) : IO matrix :=
  match lines with
  | [] => mret []
  | line :: rest =>
      match parse_row line with
      | Some row => rows ← parse_lines rest; mret (row :: rows)
      | None => tell [EvSkipLine (py_strip line)];; parse_lines rest
      end
  end.

(** Lines 35-45: the matrix read must have rows, all as long as the first. *)
Definition check_rows (matrix : list (list Z)) : IO (option (list (list Z))) :=
  match matrix with
  | [] => tell [EvNoData];; mret None
  | row0 :: _ =>
      let first_row_len := length row0 in
      if forallb (λ row, Nat.eqb (length row) first_row_len) matrix
      then mret (Some matrix)
      else (tell [EvInconsistentColumns];; mret None)
  end.

(** Lines 5-45.  [file] is the file system's answer for [filename]. *)
Definition read_matrix (file : option string) (filename : string) : IO (option matrix) :=
  match file with
  | None => tell [EvFileNotFound filename];; mret None
  | Some contents =>
      let lines := py_readlines contents in
      match lines with
      | [] => tell [EvFileEmpty filename];; mret None
      | line0 :: _ =>
          let start_line := if py_startswith (py_strip line0) "//" then 1%nat else 0%nat in
          matrix ← parse_lines (drop start_line lines);
          check_rows matrix
      end
  end.

(** ** The documented file format *)

(** One row as the file holds it: the decimal numbers joined by commas. *)
Definition row_text (row : list Z) : string :=
  String.concat (String "," EmptyString) (py_str_int <$> row).

(** The matrix as a file, one row per line. *)
Definition matrix_text (m : matrix) : string := lines_text (row_text <$> m).

(** ** The row parser and the loop *)

Lemma parse_row_nonempty line row : parse_row line = Some row → row ≠ [].
Proof.
  unfold parse_row. intros Hrow%length_mapM.
  pose proof (length_py_split (py_strip line) ","). destruct row; [simpl in *; lia|done].
Qed.

(** A line whose stripped text starts with [//] never parses: its first
    field starts with [/]. *)
Lemma comment_line_unparseable line :
  py_startswith (py_strip line) "//" = true → parse_row line = None.
Proof.
  unfold py_startswith, parse_row. destruct (py_strip line) as [|c r]; [done|].
  change "//" with (String "/" (String "/" EmptyString)). cbn [String.prefix].
  destruct (ascii_dec "/" c) as [<-|]; [|done]. intros _.
  unfold py_split. cbn [split_aux]. destruct (split_aux "," r) as [w ws].
  rewrite bool_decide_false by done. cbn [mapM].
  by rewrite py_int_other_head.
Qed.

Lemma parse_lines_val lines : val (parse_lines lines) = omap parse_row lines.
Proof.
  induction lines as [|line rest IH]; cbn [parse_lines]; [done|].
  destruct (parse_row line) eqn:E; wsimp; rewrite IH; simpl; by rewrite E.
Qed.

Lemma parse_lines_out lines :
  out (parse_lines lines) =
  (λ line, EvSkipLine (py_strip line)) <$> filter (λ line, parse_row line = None) lines.
Proof.
  induction lines as [|line rest IH]; cbn [parse_lines]; [done|].
  rewrite filter_cons. destruct (parse_row line); wsimp; rewrite IH.
  - rewrite decide_False by done. by rewrite app_nil_r.
  - by rewrite decide_True.
Qed.

Lemma parse_lines_nonempty_rows lines : Forall (λ row, row ≠ []) (val (parse_lines lines)).
Proof.
  rewrite parse_lines_val. apply Forall_forall. intros row (line & _ & Hl)%list_elem_of_omap.
  by eapply parse_row_nonempty.
Qed.

(** Skipping a first line that starts with [//] does not change the rows
    read: that line never parses. *)
Lemma parse_lines_from_start line0 lines :
  val (parse_lines (drop (if py_startswith (py_strip line0) "//" then 1 else 0)%nat
                         (line0 :: lines))) =
  omap parse_row (line0 :: lines).
Proof.
  rewrite parse_lines_val. destruct (py_startswith _ _) eqn:Hc; [|done].
  cbn [drop]. simpl. by rewrite comment_line_unparseable.
Qed.

(** ** The final checks *)

Lemma check_rows_Some rows m :
  val (check_rows rows) = Some m →
  m = rows ∧ ∃ row0 rest, rows = row0 :: rest ∧ Forall (λ row, length row = length row0) rows.
Proof.
  unfold check_rows. destruct rows as [|row0 rest]; wsimp; [done|].
  destruct (forallb _ _) eqn:Hall; wsimp; [|done]. intros [= <-].
  split; [done|]. exists row0, rest. split; [done|].
  apply Forall_forall. intros row Hrow. eapply forallb_forall in Hall; [|by apply list_elem_of_In].
  by apply Nat.eqb_eq.
Qed.

Lemma check_rows_shape rows C :
  matrix_shape rows C → check_rows rows = ([], Some rows).
Proof.
  intros (HC & Hne & Hrows). unfold check_rows. destruct rows as [|row0 rest]; [done|].
  apply Forall_cons in Hrows as Hrow0. destruct Hrow0 as [Hrow0 _].
  rewrite (proj2 (forallb_forall _ _)); [done|].
  intros row Hrow%list_elem_of_In. apply Nat.eqb_eq. eapply Forall_forall in Hrows; [|done].
  lia.
Qed.

(** ** Reading a line of the documented format *)

(** The characters of a row line: those of numbers and the comma. *)
Definition is_row_char (c : ascii) : bool := is_num_char c || bool_decide (c = ","%char).

Lemma is_row_char_props c :
  is_row_char c = true →
  is_py_space c = false ∧ c ≠ "010"%char ∧ c ≠ "013"%char.
Proof.
  unfold is_row_char, is_num_char. destruct (is_digit c) eqn:Hd.
  - intros _. split_and!; [by apply is_digit_not_space| |]; intros ->; discriminate.
  - simpl. intros Hc. repeat case_bool_decide; simplify_eq; done.
Qed.

Lemma row_text_chars row : str_forall is_row_char (row_text row) = true.
Proof.
  apply str_forall_concat; [done|]. apply Forall_fmap, Forall_true. intros z.
  eapply str_forall_impl; [|apply py_str_int_chars].
  intros c Hc. unfold is_row_char. by rewrite Hc.
Qed.

Lemma row_text_no_newline row :
  not_in "010" (row_text row) && not_in "013" (row_text row) = true.
Proof.
  unfold not_in. apply andb_true_iff.
  split; (eapply str_forall_impl; [|apply row_text_chars]);
    intros c (_ & Hn & Hr)%is_row_char_props; apply negb_true_iff, bool_decide_false; done.
Qed.

Lemma row_text_head z row : ∃ c r, row_text (z :: row) = String c r ∧ is_num_char c = true.
Proof.
  destruct (py_str_int_head z) as (c & r & Hz & Hc). exists c.
  unfold row_text. rewrite fmap_cons. destruct row as [|z' row].
  - exists r. by rewrite <-Hz.
  - exists (r +:+ String "," EmptyString +:+ String.concat (String "," EmptyString) (py_str_int <$> z' :: row)).
    split; [|done]. change (String.concat ?sep (?w :: ?w' :: ?ws))
      with (w +:+ sep +:+ String.concat sep (w' :: ws)). by rewrite Hz.
Qed.

(** [int] reads back every number of the row. *)
Lemma parse_row_row_text row :
  row ≠ [] → Forall (λ z, Z.abs z < 10 ^ Z.of_nat max_str_digits) row →
  parse_row (row_text row +:+ String "010" EmptyString) = Some row.
Proof.
  intros Hne Hrow. unfold parse_row. unfold py_strip. rewrite strip_with_app; [|eapply str_forall_impl; [|apply row_text_chars]|done].
  2: { intros c Hc%is_row_char_props. simpl. by rewrite (proj1 Hc). }
  unfold row_text. rewrite py_split_concat.
  - apply mapM_fmap_Forall_Some. eapply Forall_impl; [done|]. apply py_int_py_str_int.
  - by destruct row.
  - apply Forall_fmap, Forall_true. intros z. eapply str_forall_impl; [|apply py_str_int_chars].
    intros c Hc. apply negb_true_iff, bool_decide_false. intros ->. discriminate.
Qed.

(** A row line is not taken for a comment. *)
Lemma row_text_not_comment row :
  row ≠ [] → py_startswith (py_strip (row_text row +:+ String "010" EmptyString)) "//" = false.
Proof.
  intros Hne. unfold py_strip. rewrite strip_with_app; [|eapply str_forall_impl; [|apply row_text_chars]|done].
  2: { intros c Hc%is_row_char_props. simpl. by rewrite (proj1 Hc). }
  destruct row as [|z row]; [done|]. destruct (row_text_head z row) as (c & r & -> & Hc).
  unfold py_startswith. change "//" with (String "/" (String "/" EmptyString)).
  cbn [String.prefix]. destruct (ascii_dec "/" c) as [<-|]; [discriminate|done].
Qed.

Lemma parse_lines_row_texts rows :
  Forall (λ row, row ≠ [] ∧ Forall (λ z, Z.abs z < 10 ^ Z.of_nat max_str_digits) row) rows →
  parse_lines ((λ row, row_text row +:+ String "010" EmptyString) <$> rows) = ([], rows).
Proof.
  induction 1 as [|row rows [Hne Hrow] Hrows IH]; [done|].
  rewrite fmap_cons. cbn [parse_lines]. rewrite parse_row_row_text by done.
  by rewrite IH.
Qed.

Lemma py_readlines_matrix_text (header : list string) m :
  Forall (λ l, not_in "010" l && not_in "013" l = true) header →
  py_readlines (lines_text (header ++ (row_text <$> m))) =
  (λ l, l +:+ String "010" EmptyString) <$> (header ++ (row_text <$> m)).
Proof.
  intros Hh. apply py_readlines_lines_text, Forall_app. split; [done|].
  apply Forall_fmap, Forall_true. intros row. apply row_text_no_newline.
Qed.

Lemma matrix_rows_ok m C :
  matrix_shape m C → Forall (λ z, Z.abs z < 10 ^ Z.of_nat max_str_digits) (concat m) →
  Forall (λ row, row ≠ [] ∧ Forall (λ z, Z.abs z < 10 ^ Z.of_nat max_str_digits) row) m.
Proof.
  intros (HC & _ & Hm) Hz. apply Forall_and. split.
  - eapply Forall_impl; [done|]. intros row Hrow ->. simpl in Hrow. lia.
  - by apply Forall_concat_iff.
Qed.

(** ** The contract of the loader *)

(** A successful load is a nonempty matrix whose rows are nonempty and all
    of the same length: whatever the file, the loader meets the
    precondition of the search. *)
Lemma read_matrix_shape file filename m :
  val (read_matrix file filename) = Some m → ∃ C, matrix_shape m C.
Proof.
  destruct file as [contents|]; cbn [read_matrix]; [|by wsimp].
  destruct (py_readlines contents) as [|line0 lines]; [by wsimp|].
  rewrite val_bind. intros (-> & row0 & rest & Hrows & Hlen)%check_rows_Some.
  pose proof (parse_lines_nonempty_rows (drop (if py_startswith (py_strip line0) "//" then 1 else 0)%nat (line0 :: lines))) as Hne.
  rewrite Hrows in Hne |- *. apply Forall_cons in Hne as [Hrow0 _].
  exists (length row0). rewrite Hrows in Hlen.
  split_and!; [destruct row0; [done|simpl; lia]|done|done].
Qed.

(** The result of the loader is the check of lines 35-45 on all lines that
    parse. *)
Lemma read_matrix_val contents filename :
  val (read_matrix (Some contents) filename) =
  val (check_rows (omap parse_row (py_readlines contents))).
Proof.
  cbn [read_matrix]. destruct (py_readlines contents) as [|line0 lines]; [by wsimp|].
  by rewrite val_bind, parse_lines_from_start.
Qed.

(** A file whose parsed rows are ragged is reported as such, after the
    warnings for its unparseable lines. *)
Lemma read_matrix_ragged contents filename row0 rows :
  omap parse_row (py_readlines contents) = row0 :: rows →
  Exists (λ row, length row ≠ length row0) rows →
  ∃ warnings, Forall (λ e, ∃ line, e = EvSkipLine line) warnings ∧
    read_matrix (Some contents) filename = (warnings ++ [EvInconsistentColumns], None).
Proof.
  intros Hrows Hragged. cbn [read_matrix].
  destruct (py_readlines contents) as [|line0 lines]; [done|].
  set (p := parse_lines (drop _ (line0 :: lines))).
  assert (Hval : val p = row0 :: rows) by (subst p; by rewrite parse_lines_from_start).
  exists (out p). split.
  { subst p. rewrite parse_lines_out. apply Forall_fmap, Forall_true. naive_solver. }
  destruct p as [o v]. unfold val, out in *. simpl in Hval |- *. subst v.
  unfold mbind, W_bind, check_rows.
  destruct (forallb _ _) eqn:Hall; [|done].
  exfalso. apply Exists_exists in Hragged as (row & Hrow & Hne).
  eapply forallb_forall in Hall; [|apply list_elem_of_In; by right].
  by apply Nat.eqb_eq in Hall.
Qed.

(** A matrix file of the documented format is read back silently. *)
Lemma read_matrix_matrix_text_silent m C filename :
  matrix_shape m C → Forall (λ z, Z.abs z < 10 ^ Z.of_nat max_str_digits) (concat m) →
  read_matrix (Some (matrix_text m)) filename = ([], Some m).
Proof.
  intros Hshape Hz. pose proof (matrix_rows_ok m C Hshape Hz) as Hrows.
  pose proof (check_rows_shape m C Hshape) as Hcheck.
  destruct Hshape as (_ & Hne & _).
  unfold read_matrix, matrix_text.
  change (lines_text (row_text <$> m)) with (lines_text ([] ++ (row_text <$> m))).
  rewrite (py_readlines_matrix_text [] m) by done. simpl.
  destruct m as [|row0 rest]; [done|]. apply Forall_cons in Hrows as Hrow0.
  rewrite !fmap_cons. cbn iota beta zeta. rewrite row_text_not_comment by apply Hrow0.
  cbn [drop].
  transitivity (parse_lines ((λ row, row_text row +:+ String "010" EmptyString) <$> row0 :: rest)
                ≫= check_rows); [by rewrite <-list_fmap_compose|].
  by rewrite parse_lines_row_texts, W_bind_silent, Hcheck.
Qed.

(** C8: a load succeeds exactly when the lines that parse form a nonempty
    matrix whose rows are nonempty and of one length; it returns those
    rows in file order. *)
Theorem read_matrix_Some_iff contents filename m :
  val (read_matrix (Some contents) filename) = Some m ↔
  m = omap parse_row (py_readlines contents) ∧ ∃ C, matrix_shape m C.
Proof.
  split.
  - intros Hm. split.
    + rewrite read_matrix_val in Hm. by apply check_rows_Some in Hm as [-> _].
    + by eapply read_matrix_shape.
  - intros [-> [C HC]]. rewrite read_matrix_val. by rewrite (check_rows_shape _ C HC).
Qed.

(** C19: the events of the loop are one warning per unparseable line, in
    file order, with the stripped line; its rows are the parsed lines, in
    file order. *)
Theorem parse_lines_spec lines :
  parse_lines lines =
  ((λ line, EvSkipLine (py_strip line)) <$> filter (λ line, parse_row line = None) lines,
   omap parse_row lines).
Proof. rewrite <-parse_lines_out, <-parse_lines_val. by destruct (parse_lines lines). Qed.

(** C10: the comment test of line 24 never changes the result: reading all
    lines from the first gives the same matrix or the same failure, since
    a line starting with [//] does not parse.  The test only suppresses
    the warning for that line. *)
Theorem read_matrix_comment_irrelevant contents filename :
  val (read_matrix (Some contents) filename) =
  val (parse_lines (py_readlines contents) ≫= check_rows).
Proof. by rewrite read_matrix_val, val_bind, parse_lines_val. Qed.

(** C11: round trip: a nonempty rectangular matrix of nonempty rows of
    numbers of at most 4300 digits, written one row per line with its
    numbers joined by commas, is read back unchanged and silently; the same
    holds below a header line that starts with [//]. *)
Theorem read_matrix_matrix_text m C filename :
  matrix_shape m C → Forall (λ z, Z.abs z < 10 ^ Z.of_nat max_str_digits) (concat m) →
  read_matrix (Some (matrix_text m)) filename = ([], Some m) ∧
  ∀ header, not_in "010" header && not_in "013" header = true →
    py_startswith (py_strip header) "//" = true →
    read_matrix (Some (lines_text (header :: (row_text <$> m)))) filename = ([], Some m).
Proof.
  intros Hshape Hz. split; [by eapply read_matrix_matrix_text_silent|].
  pose proof (matrix_rows_ok m C Hshape Hz) as Hrows.
  pose proof (check_rows_shape m C Hshape) as Hcheck.
  intros header Hh Hc. unfold read_matrix.
  change (lines_text (header :: (row_text <$> m)))
    with (lines_text ([header] ++ (row_text <$> m))).
  rewrite (py_readlines_matrix_text [header] m) by (by constructor). simpl.
  unfold py_strip in Hc |- *. rewrite strip_with_app_space, Hc by done. cbn [drop].
  transitivity (parse_lines ((λ row, row_text row +:+ String "010" EmptyString) <$> m)
                ≫= check_rows); [by rewrite <-list_fmap_compose|].
  by rewrite parse_lines_row_texts, W_bind_silent, Hcheck.
Qed.

(** ** Witnesses *)

Lemma read_matrix_matrix_text_witness :
  matrix_shape [[90; 10]; [10; 90]] 2 ∧
  Forall (λ z, Z.abs z < 10 ^ Z.of_nat max_str_digits) (concat [[90; 10]; [10; 90]]) ∧
  read_matrix (Some (matrix_text [[90; 10]; [10; 90]])) "matrix.txt" = ([], Some [[90; 10]; [10; 90]]).
Proof.
  assert (H1 : matrix_shape [[90; 10]; [10; 90]] 2)
    by (split_and!; [lia|discriminate|repeat constructor]).
  assert (H2 : Forall (λ z, Z.abs z < 10 ^ Z.of_nat max_str_digits) (concat [[90; 10]; [10; 90]]))
    by (repeat constructor; vm_compute; reflexivity).
  split_and!; [exact H1|exact H2|]. exact (proj1 (read_matrix_matrix_text _ 2 "matrix.txt" H1 H2)).
Defined.
