(* ===== verification/Solve.v ===== *)
(** * Entry point: [solve_matrix_problem] of [src/main.py] (lines 73-121)

    [solve_matrix_problem] reads the matrix with [read_matrix].  When the
    load fails it prints [Exiting due to matrix reading error.] and returns.
    Otherwise it runs the search of lines 83-118, modelled as
    [Search.search_matrix].  [run_result] records which of the two paths a
    run took.  The script's [None] return value carries no information.

    The theorems compose the loader's contract with the search's.  A run
    either fails to load or searches a nonempty rectangular matrix and
    returns the search's answer.  The [CannotSolve] branches of lines 84-90
    are dead: no run prints their messages.  Reading a matrix file written
    in the documented format is a search of that matrix.  A file whose
    parsed rows are ragged ends the run before the search, as the
    specification's malformed example does. *)

From Stdlib Require Import Ascii String.
From stdpp Require Import strings.
From S2P Require Import Prelude PyStr Console ColumnSums Search Loader.

Local Open Scope Z_scope.
#[local] Arguments String.append : simpl nomatch.

(** How a run of [solve_matrix_problem] ends. *)
Inductive run_result : Type :=
  (** lines 79-81: [read_matrix] returned [None] *)
  | ReadFailed
  (** lines 83-118: the search ran and ended with [o] *)
  | Searched (o : outcome).

#[export] Instance run_result_eq_dec : EqDecision run_result.
Proof. solve_decision. Defined.

(** Lines 73-118. *)
Definition solve_matrix_problem (file : option string) (filename : string) : IO run_result :=
  original_matrix ← read_matrix file filename;
  match original_matrix with
  | None => tell [EvExiting];; mret ReadFailed
  | Some m => o ← search_matrix m; mret (Searched o)
  end.

(** Line 121: [solve_matrix_problem(filename="matrix.txt")]; [file] is the
    file system's answer for [matrix.txt]. *)
Definition main (file : option string) : IO run_result :=
  solve_matrix_problem file "matrix.txt".

(** ** Which events a run prints *)

(** The messages of the [CannotSolve] branches, lines 85 and 89. *)
Definition cannot_solve_event (e : event) : bool :=
  match e with
  | EvMatrixEmpty | EvRowsEmpty => true
  | _ => false
  end.

Lemma solve_matrix_problem_eq file filename :
  solve_matrix_problem file filename =
  match val (read_matrix file filename) with
  | None => (out (read_matrix file filename) ++ [EvExiting], ReadFailed)
  | Some m => (out (read_matrix file filename) ++ out (search_matrix m), Searched (val (search_matrix m)))
  end.
Proof.
  unfold solve_matrix_problem, mbind, W_bind at 1.
  destruct (read_matrix file filename) as [o [m|]]; simpl.
  - unfold mbind, W_bind. destruct (search_matrix m) as [o2 r]. simpl. by rewrite app_nil_r.
  - done.
Qed.

Lemma check_column_sums_events m t :
  Forall (λ e, cannot_solve_event e = false) (out (check_column_sums m t)).
Proof.
  unfold check_column_sums. repeat case_match; wsimp; repeat constructor.
Qed.

Lemma search_loop_events m R T i cs :
  Forall (λ e, cannot_solve_event e = false) (out (search_loop m R T i cs)).
Proof.
  revert i. induction cs as [|c cs IH]; intros i; cbn [search_loop]; wsimp; [constructor|].
  apply Forall_app. split; [case_match; wsimp; repeat constructor|].
  apply Forall_app. split; [apply check_column_sums_events|].
  case_match; wsimp; [|apply IH].
  rewrite app_nil_r. unfold solution_events. apply Forall_app.
  split; [repeat constructor|]. apply Forall_fmap, Forall_true. done.
Qed.

Lemma read_matrix_events file filename :
  Forall (λ e, cannot_solve_event e = false) (out (read_matrix file filename)).
Proof.
  destruct file as [contents|]; cbn [read_matrix]; wsimp; [|repeat constructor].
  destruct (py_readlines contents); wsimp; [repeat constructor|].
  apply Forall_app. split.
  - rewrite parse_lines_out. apply Forall_fmap, Forall_true. done.
  - unfold check_rows. repeat case_match; wsimp; repeat constructor.
Qed.

(** ** The contract of a run *)

(** C7: refinement: a run either fails to load, printing the loader's
    messages and the exit message, or loads a nonempty rectangular matrix
    of nonempty rows and ends with the answer of the search contract: the
    lexicographically least passing shift assignment or exhaustion. *)
Theorem solve_matrix_problem_refines file filename :
  (val (read_matrix file filename) = None ∧
   solve_matrix_problem file filename = (out (read_matrix file filename) ++ [EvExiting], ReadFailed))
  ∨ (∃ m C o, val (read_matrix file filename) = Some m ∧ matrix_shape m C ∧
       val (solve_matrix_problem file filename) = Searched o ∧
       search_spec m C (λ s, passes m (length m) s = true) o).
Proof.
  rewrite solve_matrix_problem_eq.
  destruct (val (read_matrix file filename)) as [m|] eqn:Hm; [right|by left].
  destruct (read_matrix_shape file filename m Hm) as [C HC].
  exists m, C, (val (search_matrix m)). split_and!; [done|done|done|].
  rewrite (search_matrix_unfold m C HC). apply search_loop_spec.
Qed.

(** C9: the [CannotSolve] branches of lines 84-90 are dead code: no run
    ends in [CannotSolve] or prints [Matrix is empty] or
    [Matrix rows are empty], whatever the file holds. *)
Theorem solve_matrix_problem_never_cannot_solve file filename :
  val (solve_matrix_problem file filename) ≠ Searched CannotSolve ∧
  Forall (λ e, cannot_solve_event e = false) (out (solve_matrix_problem file filename)).
Proof.
  rewrite solve_matrix_problem_eq.
  pose proof (read_matrix_events file filename) as Hread.
  destruct (val (read_matrix file filename)) as [m|] eqn:Hm; simpl.
  - destruct (read_matrix_shape file filename m Hm) as [C HC].
    rewrite (search_matrix_unfold m C HC). simpl. split.
    + rewrite search_loop_val. by destruct (list_find _ _) as [[k s]|].
    + apply Forall_app. split; [done|]. constructor; [done|].
      apply Forall_app. split; [apply search_loop_events|]. case_decide; repeat constructor.
  - split; [done|]. apply Forall_app. split; [done|]. by repeat constructor.
Qed.

(** C24: a run on a matrix file written in the documented format prints
    and returns what the search prints and returns on that matrix. *)
Theorem solve_matrix_problem_matrix_text m C filename :
  matrix_shape m C → Forall (λ z, Z.abs z < 10 ^ Z.of_nat max_str_digits) (concat m) →
  solve_matrix_problem (Some (matrix_text m)) filename =
  (out (search_matrix m), Searched (val (search_matrix m))).
Proof.
  intros Hshape Hz. rewrite solve_matrix_problem_eq.
  by rewrite (read_matrix_matrix_text_silent m C filename Hshape Hz).
Qed.

(** C25: error path: when the lines that parse give rows that are not all
    as long as the first, the run prints the warnings for the unparseable
    lines, [Matrix rows have inconsistent number of columns.] and the exit
    message, and ends without starting the search.  The malformed file of
    the specification, rows [1,2,3] and [1,2], is such a file. *)
Theorem solve_matrix_problem_ragged contents filename row0 rows :
  omap parse_row (py_readlines contents) = row0 :: rows →
  Exists (λ row, length row ≠ length row0) rows →
  ∃ warnings, Forall (λ e, ∃ line, e = EvSkipLine line) warnings ∧
    solve_matrix_problem (Some contents) filename =
      (warnings ++ [EvInconsistentColumns; EvExiting], ReadFailed).
Proof.
  intros Hrows Hragged.
  destruct (read_matrix_ragged contents filename row0 rows Hrows Hragged) as (ws & Hws & Hread).
  exists ws. split; [done|]. rewrite solve_matrix_problem_eq, Hread. simpl.
  by rewrite <-app_assoc.
Qed.

(** ** Witnesses *)

Lemma solve_matrix_problem_matrix_text_witness :
  matrix_shape [[90; 10]; [10; 90]] 2 ∧
  Forall (λ z, Z.abs z < 10 ^ Z.of_nat max_str_digits) (concat [[90; 10]; [10; 90]]) ∧
  solve_matrix_problem (Some (matrix_text [[90; 10]; [10; 90]])) "matrix.txt" =
  (out (search_matrix [[90; 10]; [10; 90]]), Searched (val (search_matrix [[90; 10]; [10; 90]]))).
Proof.
  assert (H1 : matrix_shape [[90; 10]; [10; 90]] 2)
    by (split_and!; [lia|discriminate|repeat constructor]).
  assert (H2 : Forall (λ z, Z.abs z < 10 ^ Z.of_nat max_str_digits) (concat [[90; 10]; [10; 90]]))
    by (repeat constructor; vm_compute; reflexivity).
  split_and!; [exact H1|exact H2|]. exact (solve_matrix_problem_matrix_text _ 2 "matrix.txt" H1 H2).
Defined.

Lemma solve_matrix_problem_ragged_witness :
  omap parse_row (py_readlines ("1,2,3" +:+ String "010" "1,2")) = [1; 2; 3] :: [[1; 2]] ∧
  Exists (λ row, length row ≠ length [1; 2; 3]) [[1; 2]] ∧
  ∃ warnings, Forall (λ e, ∃ line, e = EvSkipLine line) warnings ∧
    solve_matrix_problem (Some ("1,2,3" +:+ String "010" "1,2")) "matrix.txt" =
      (warnings ++ [EvInconsistentColumns; EvExiting], ReadFailed).
Proof.
  assert (H1 : omap parse_row (py_readlines ("1,2,3" +:+ String "010" "1,2")) = [1; 2; 3] :: [[1; 2]])
    by (vm_compute; reflexivity).
  assert (H2 : Exists (λ row, length row ≠ length [1; 2; 3]) [[1; 2]])
    by (constructor; simpl; lia).
  split_and!; [exact H1|exact H2|]. exact (solve_matrix_problem_ragged _ "matrix.txt" _ _ H1 H2).
Defined.
